(** * craft_store.creds: serialising Candid and Ubuntu One credentials

    A shallow embedding of [craft_store/creds.py] together with the parts of
    the Python standard library ([json]) and of pydantic 1.x ([BaseModel]
    construction, [dict(by_alias=True)], [copy(update=...)]) that the module
    runs through.

    Conventions of the embedding:
    - a Python [str] is the list of its code points ([pystr]);
    - a Python exception is a value of [exn], and a call that may raise
      returns a [result];
    - CPython's resource limits (recursion depth, the cap on the number of
      digits of an [int] literal) are not modelled: integers are unbounded
      and the decoder is given a budget that always suffices
      ([json_loads_budget]). *)

From Stdlib Require Import List NArith ZArith Lia Bool String Ascii DecimalString.
Import ListNotations.

Local Open Scope list_scope.
Local Open Scope N_scope.

(** ** Python strings *)

Definition codepoint := N.
Definition pystr := list codepoint.

(** [py "abc"] is the Python string ['abc'] (one code point per character). *)
Fixpoint py (s : string) : pystr :=
  match s with
  | EmptyString => []
  | String a r => N_of_ascii a :: py r
  end.

(** [pyq] reads a literal in which the apostrophe stands for the double quote
    (code point 34), so that JSON texts can be written inline:
    [pyq "{'v': 'm'}"] is the Python string ['{"v": "m"}']. *)
Definition pyq (s : string) : pystr :=
  map (fun c => if c =? 39 then 34 else c) (py s).

Fixpoint pystr_eqb (a b : pystr) : bool :=
  match a, b with
  | [], [] => true
  | x :: a', y :: b' => (x =? y) && pystr_eqb a' b'
  | _, _ => false
  end.

(** [s.startswith(p)], with the remainder of [s] after the prefix. *)
Fixpoint strip_prefix (p s : pystr) : option pystr :=
  match p, s with
  | [], _ => Some s
  | x :: p', y :: s' => if x =? y then strip_prefix p' s' else None
  | _ :: _, [] => None
  end.

(** Code points allowed in a Python [str]. *)
Definition valid_codepoint (c : codepoint) : Prop := c < 1114112.
Definition is_high_surrogate (c : codepoint) : bool := (55296 <=? c) && (c <=? 56319).
Definition is_low_surrogate (c : codepoint) : bool := (56320 <=? c) && (c <=? 57343).

(** ** Python floats

    A finite float is [(-1)^neg * m * 2^e] with [m < 2^53] and [e >= -1074]
    (binary64); [float(text)] rounds to nearest, ties to even, and
    [repr] prints the shortest decimal that reads back as the same float. *)

Inductive pyfloat :=
| FNan
| FInf (neg : bool)
| FFinite (neg : bool) (m : N) (e : Z).

Local Open Scope Z_scope.

Definition round_half_even (num den : Z) : Z :=
  let q := num / den in
  let r := num mod den in
  match 2 * r ?= den with
  | Lt => q
  | Gt => q + 1
  | Eq => if Z.even q then q else q + 1
  end.

(** [floor (log2 (num / den))] for positive [num] and [den]. *)
Definition floor_log2_ratio (num den : Z) : Z :=
  let l := Z.log2 num - Z.log2 den in
  let below := if 0 <=? l then num <? den * 2 ^ l else num * 2 ^ (- l) <? den in
  if below then l - 1 else l.

(** The float nearest to [d * 10^k] (with [d >= 0]).  The first two tests
    settle the literals far outside the range of a float without computing
    the power of ten: [d * 10^k] is above [10^310] in the first and below
    [10^-330] in the second. *)
Definition float_of_decimal (neg : bool) (d k : Z) : pyfloat :=
  if d =? 0 then FFinite neg 0 0
  else if 310 <? k + Z.log2 d * 3 / 10 then FInf neg
  else if k + Z.log2 d + 1 <? -330 then FFinite neg 0 0
  else
    let num := if 0 <=? k then d * 10 ^ k else d in
    let den := if 0 <=? k then 1 else 10 ^ (- k) in
    let e := Z.max (floor_log2_ratio num den - 52) (-1074) in
    let q := if 0 <=? e then round_half_even num (den * 2 ^ e)
             else round_half_even (num * 2 ^ (- e)) den in
    let e' := if q =? 2 ^ 53 then e + 1 else e in
    let q' := if q =? 2 ^ 53 then 2 ^ 52 else q in
    if 971 <? e' then FInf neg
    else if q' =? 0 then FFinite neg 0 0
    else FFinite neg (Z.to_N q') e'.

(** [floor (log10 (num / den))] for positive [num] and [den]. *)
Definition le_pow10 (k num den : Z) : bool :=
  if 0 <=? k then 10 ^ k * den <=? num else den <=? num * 10 ^ (- k).

Definition floor_log10_ratio (num den : Z) : Z :=
  let k := (floor_log2_ratio num den * 30103) / 100000 in
  if le_pow10 (k + 1) num den then k + 1
  else if le_pow10 k num den then k
  else k - 1.

(** One round of the shortest-digits search: the [n]-digit decimals next to
    [x = xn/dn] are checked against the rounding interval [[ln/dn, hn/dn]]
    of the float (closed when the mantissa is even); [Some (c, p)] stands for
    [c * 10^p]. *)
Definition shortest_try (closed : bool) (xn ln hn dn k : Z) (n : Z) : option (Z * Z) :=
  let p := k - n + 1 in
  let s := if 0 <=? p then 1 else 10 ^ (- p) in
  let den := if 0 <=? p then dn * 10 ^ p else dn in
  let c := (xn * s) / den in
  let r := (xn * s) mod den in
  let low_ok := if closed then ln * s <=? c * den else ln * s <? c * den in
  let high_ok := if closed then (c + 1) * den <=? hn * s else (c + 1) * den <? hn * s in
  let up := match 2 * r ?= den with
            | Lt => false
            | Gt => true
            | Eq => Z.odd c
            end in
  match low_ok, high_ok with
  | true, true => Some (if up then c + 1 else c, p)
  | true, false => Some (c, p)
  | false, true => Some (c + 1, p)
  | false, false => None
  end.

Fixpoint shortest_search (closed : bool) (xn ln hn dn k : Z) (n : Z) (tries : nat)
  : Z * Z :=
  match tries with
  | O => ((xn * (if 0 <=? k - n + 1 then 1 else 10 ^ (- (k - n + 1))))
            / (if 0 <=? k - n + 1 then dn * 10 ^ (k - n + 1) else dn), k - n + 1)
  | S tries' =>
      match shortest_try closed xn ln hn dn k n with
      | Some cp => cp
      | None => shortest_search closed xn ln hn dn k (n + 1) tries'
      end
  end.

(** Shortest decimal [c * 10^p] that rounds to the float [m * 2^e], [m > 0].
    Everything is counted in quarters of the unit in the last place. *)
Definition shortest_decimal (m : Z) (e : Z) : Z * Z :=
  let narrow := (m =? 2 ^ 52) && (-1074 <? e) in
  let xq := 4 * m in
  let lq := if narrow then 4 * m - 1 else 4 * m - 2 in
  let hq := 4 * m + 2 in
  let u := e - 2 in
  let sc := if 0 <=? u then 2 ^ u else 1 in
  let dn := if 0 <=? u then 1 else 2 ^ (- u) in
  let k := floor_log10_ratio (xq * sc) dn in
  shortest_search (Z.even m) (xq * sc) (lq * sc) (hq * sc) dn k 1 17.

(** [str(z)] for a Python [int]. *)
Definition int_repr (z : Z) : pystr := py (NilZero.string_of_int (Z.to_int z)).

Fixpoint strip_zeros_rev (r : pystr) : pystr :=
  match r with
  | c :: r' => if (c =? 48)%N then strip_zeros_rev r' else r
  | [] => []
  end.

Definition strip_trailing_zeros (ds : pystr) : pystr := rev (strip_zeros_rev (rev ds)).

Definition zeros (n : Z) : pystr := repeat 48%N (Z.to_nat n).

(** [float.__repr__] lays the digits [ds] out with the decimal point after
    [decpt] of them: exponent notation when [decpt <= -4] or [decpt > 16],
    positional notation (always with a fractional part) otherwise. *)
Definition float_layout (ds : pystr) (decpt : Z) : pystr :=
  let nd := Z.of_nat (List.length ds) in
  if (decpt <=? -4) || (16 <? decpt) then
    let ex := decpt - 1 in
    let mant := match ds with
                | [] => []
                | [d] => [d]
                | d :: more => d :: 46%N :: more
                end in
    let exd := int_repr (Z.abs ex) in
    mant ++ [101%N] ++ [if ex <? 0 then 45%N else 43%N]
         ++ (if Z.abs ex <? 10 then 48%N :: exd else exd)
  else if decpt <=? 0 then py "0." ++ zeros (- decpt) ++ ds
  else if nd <=? decpt then ds ++ zeros (decpt - nd) ++ py ".0"
  else firstn (Z.to_nat decpt) ds ++ [46%N] ++ skipn (Z.to_nat decpt) ds.

Definition float_repr (f : pyfloat) : pystr :=
  match f with
  | FNan => py "nan"
  | FInf false => py "inf"
  | FInf true => py "-inf"
  | FFinite neg m e =>
      (if neg then [45%N] else []) ++
      (if (m =? 0)%N then py "0.0"
       else
         let cp := shortest_decimal (Z.of_N m) e in
         let all := int_repr (fst cp) in
         float_layout (strip_trailing_zeros all) (snd cp + Z.of_nat (List.length all)))
  end.

Local Open Scope N_scope.

(** ** Python objects

    The objects [json.loads] can return and [json.dumps] is given here.  A
    [dict] keeps its keys in insertion order, so it is an association list
    without repeated keys, built with [dict_setitem]. *)

#[local] Set Warnings "-register-all".

Inductive pyobj :=
| PyNone
| PyBool (b : bool)
| PyInt (z : Z)
| PyFloat (f : pyfloat)
| PyStr (s : pystr)
| PyList (items : list pyobj)
| PyDict (items : list (pystr * pyobj)).

Section Dict.
Context {V : Type}.

Definition pydict := list (pystr * V).

(** [d.get(k)] *)
Fixpoint dict_get (k : pystr) (d : pydict) : option V :=
  match d with
  | [] => None
  | (k', v) :: d' => if pystr_eqb k k' then Some v else dict_get k d'
  end.

(** [k in d] *)
Definition dict_contains (k : pystr) (d : pydict) : bool :=
  match dict_get k d with Some _ => true | None => false end.

(** [d[k] = v]: an existing key keeps its place, a new one goes last. *)
Fixpoint dict_setitem (d : pydict) (k : pystr) (v : V) : pydict :=
  match d with
  | [] => [(k, v)]
  | (k', v') :: d' =>
      if pystr_eqb k k' then (k', v) :: d' else (k', v') :: dict_setitem d' k v
  end.

(** [dict(pairs)] *)
Definition dict_of_pairs (pairs : list (pystr * V)) : pydict :=
  fold_left (fun d kv => dict_setitem d (fst kv) (snd kv)) pairs [].
End Dict.

(** ** json.dumps (default settings: [ensure_ascii], separators [", "] and [": "]) *)

Definition hex_digit (n : N) : codepoint := if n <? 10 then 48 + n else 87 + n.

(** ['{0:04x}'.format(n)] for [n < 65536]. *)
Definition hex4 (n : N) : pystr :=
  [hex_digit (N.land (N.shiftr n 12) 15); hex_digit (N.land (N.shiftr n 8) 15);
   hex_digit (N.land (N.shiftr n 4) 15); hex_digit (N.land n 15)].

Definition escape_u (n : N) : pystr := 92 :: 117 :: hex4 n.

(** The surrogate pair that stands for a code point above [0xFFFF]:
    [0xd800 | ((n >> 10) & 0x3ff)] and [0xdc00 | (n & 0x3ff)] with
    [n = c - 0x10000]. *)
Definition high_unit (c : codepoint) : N :=
  N.lor 55296 (N.land (N.shiftr (c - 65536) 10) 1023).
Definition low_unit (c : codepoint) : N :=
  N.lor 56320 (N.land (c - 65536) 1023).

(** The replacement of one code point in [encode_basestring_ascii]. *)
Definition escape_char (c : codepoint) : pystr :=
  if c =? 34 then [92; 34]
  else if c =? 92 then [92; 92]
  else if c =? 10 then [92; 110]
  else if c =? 13 then [92; 114]
  else if c =? 9 then [92; 116]
  else if c =? 12 then [92; 102]
  else if c =? 8 then [92; 98]
  else if (32 <=? c) && (c <=? 126) then [c]
  else if c <? 65536 then escape_u c
  else escape_u (high_unit c) ++ escape_u (low_unit c).

Definition escape_chars (s : pystr) : pystr := flat_map escape_char s.

Definition encode_basestring_ascii (s : pystr) : pystr := 34 :: escape_chars s ++ [34].

(** [sep.join(parts)] *)
Fixpoint join (sep : pystr) (parts : list pystr) : pystr :=
  match parts with
  | [] => []
  | [p] => p
  | p :: more => p ++ sep ++ join sep more
  end.

Definition encode_float (f : pyfloat) : pystr :=
  match f with
  | FNan => py "NaN"
  | FInf false => py "Infinity"
  | FInf true => py "-Infinity"
  | FFinite _ _ _ => float_repr f
  end.

Fixpoint json_dumps (o : pyobj) : pystr :=
  match o with
  | PyNone => py "null"
  | PyBool true => py "true"
  | PyBool false => py "false"
  | PyInt z => int_repr z
  | PyFloat f => encode_float f
  | PyStr s => encode_basestring_ascii s
  | PyList items => 91 :: join (py ", ") (map json_dumps items) ++ [93]
  | PyDict items =>
      123 :: join (py ", ")
               (map (fun kv => encode_basestring_ascii (fst kv) ++ py ": " ++ json_dumps (snd kv))
                    items) ++ [125]
  end.

(** ** json.loads

    The decoder follows CPython's scanner ([_json.c]): [scanstring] for
    string literals, [match_number] for numbers, [scan_once] for values. *)

Definition is_whitespace (c : codepoint) : bool :=
  (c =? 32) || (c =? 9) || (c =? 10) || (c =? 13).

Fixpoint skip_whitespace (s : pystr) : pystr :=
  match s with
  | c :: r => if is_whitespace c then skip_whitespace r else s
  | [] => []
  end.

Definition is_digit (c : codepoint) : bool := (48 <=? c) && (c <=? 57).

Definition hex_value (c : codepoint) : option N :=
  if is_digit c then Some (c - 48)
  else if (97 <=? c) && (c <=? 102) then Some (c - 87)
  else if (65 <=? c) && (c <=? 70) then Some (c - 55)
  else None.

(** The four hex digits of a [\uXXXX] escape. *)
Definition decode_hex4 (a b c d : codepoint) : option N :=
  match hex_value a, hex_value b, hex_value c, hex_value d with
  | Some x, Some y, Some z, Some w => Some (((x * 16 + y) * 16 + z) * 16 + w)
  | _, _, _, _ => None
  end.

(** [Py_UNICODE_JOIN_SURROGATES] *)
Definition join_surrogates (hi lo : codepoint) : codepoint :=
  65536 + N.lor (N.shiftl (N.land hi 1023) 10) (N.land lo 1023).

(** The character a one-letter escape stands for. *)
Definition simple_escape (c : codepoint) : option codepoint :=
  if c =? 34 then Some 34
  else if c =? 92 then Some 92
  else if c =? 47 then Some 47
  else if c =? 98 then Some 8
  else if c =? 102 then Some 12
  else if c =? 110 then Some 10
  else if c =? 114 then Some 13
  else if c =? 116 then Some 9
  else None.

(** One more character in front of what the rest of the literal gives. *)
Definition emit (c : codepoint) (r : option (pystr * pystr)) : option (pystr * pystr) :=
  match r with
  | Some (v, rest) => Some (c :: v, rest)
  | None => None
  end.

(** [scanstring s] reads a string literal whose opening quote has been
    consumed (strict mode) and returns its value with what follows the
    closing quote; [None] is [JSONDecodeError].  After a [\uXXXX] escape
    that is a high surrogate, a second [\uXXXX] escape is read with it when
    it is a low surrogate and read again on its own when it is not. *)
Fixpoint scanstring (s : pystr) : option (pystr * pystr) :=
  match s with
  | [] => None
  | c :: r =>
      if c =? 34 then Some ([], r)
      else if c <=? 31 then None
      else if negb (c =? 92) then emit c (scanstring r)
      else
        match r with
        | [] => None
        | e :: r1 =>
            if negb (e =? 117) then
              match simple_escape e with
              | Some c' => emit c' (scanstring r1)
              | None => None
              end
            else
              match r1 with
              | h1 :: h2 :: h3 :: h4 :: r2 =>
                  match decode_hex4 h1 h2 h3 h4 with
                  | None => None
                  | Some u =>
                      if is_high_surrogate u then
                        match r2 with
                        | b :: r3 =>
                            match r3 with
                            | u' :: r4 =>
                                if (b =? 92) && (u' =? 117) then
                                  match r4 with
                                  | l1 :: l2 :: l3 :: l4 :: r5 =>
                                      match decode_hex4 l1 l2 l3 l4 with
                                      | None => None
                                      | Some u2 =>
                                          if is_low_surrogate u2
                                          then emit (join_surrogates u u2) (scanstring r5)
                                          else emit u (scanstring r2)
                                      end
                                  | _ => None
                                  end
                                else emit u (scanstring r2)
                            | [] => emit u (scanstring r2)
                            end
                        | [] => None
                        end
                      else emit u (scanstring r2)
                  end
              | _ => None
              end
        end
  end.

Fixpoint span_digits (s : pystr) : pystr * pystr :=
  match s with
  | c :: r =>
      if is_digit c then let (ds, rest) := span_digits r in (c :: ds, rest) else ([], s)
  | [] => ([], [])
  end.

Definition digits_value (ds : pystr) : Z :=
  fold_left (fun acc c => (acc * 10 + Z.of_N (c - 48))%Z) ds 0%Z.

(** [_match_number_unicode]: an optional minus sign, then [0] or a run of
    digits that does not start with [0], then optionally a dot with at least
    one digit, then optionally [e] or [E], an optional sign and at least one
    digit.  A literal with a fraction or an exponent is a [float], any other
    an [int]. *)
Definition number_int_part (s : pystr) : option (pystr * pystr) :=
  match s with
  | c :: r =>
      if (49 <=? c) && (c <=? 57) then
        let (ds, rest) := span_digits r in Some (c :: ds, rest)
      else if c =? 48 then Some ([c], r)
      else None
  | [] => None
  end.

Definition number_frac_part (s : pystr) : option pystr * pystr :=
  match s with
  | dot :: d :: _ =>
      if (dot =? 46) && is_digit d then
        let (fs, rest) := span_digits (tl s) in (Some fs, rest)
      else (None, s)
  | _ => (None, s)
  end.

Definition number_exp_part (s : pystr) : option Z * pystr :=
  match s with
  | e :: r =>
      if (e =? 101) || (e =? 69) then
        let minus := match r with c :: _ => c =? 45 | [] => false end in
        let plus := match r with c :: _ => c =? 43 | [] => false end in
        let (es, rest) := span_digits (if minus || plus then tl r else r) in
        match es with
        | [] => (None, s)
        | _ :: _ => (Some (if minus then (- digits_value es)%Z else digits_value es), rest)
        end
      else (None, s)
  | [] => (None, s)
  end.

Definition match_number (s : pystr) : option (pyobj * pystr) :=
  let neg := match s with c :: _ => c =? 45 | [] => false end in
  match number_int_part (if neg then tl s else s) with
  | None => None
  | Some (ints, s2) =>
      let (frac, s3) := number_frac_part s2 in
      let (expo, s4) := number_exp_part s3 in
      match frac, expo with
      | None, None =>
          Some (PyInt (if neg then (- digits_value ints)%Z else digits_value ints), s4)
      | _, _ =>
          let fs := match frac with Some fs => fs | None => [] end in
          let ex := match expo with Some ex => ex | None => 0%Z end in
          Some (PyFloat (float_of_decimal neg (digits_value (ints ++ fs))
                           (ex - Z.of_nat (List.length fs))), s4)
      end
  end.

(** The outcome of scanning a value: the value and the rest of the text, a
    [JSONDecodeError], or an exhausted budget.  The budget bounds the number
    of nested calls; [json_loads] gives one more than twice the length of
    the text, which is never exhausted ([json_loads_budget]). *)
Inductive scan :=
| Scanned (o : pyobj) (rest : pystr)
| Malformed
| Exhausted.

(** [scan_once] reads one JSON value at the head of [s]; [parse_object]
    expects a key and [parse_array] an item, [acc] holding what the
    enclosing object or array has read so far. *)
Fixpoint scan_once (budget : nat) (s : pystr) : scan :=
  match budget with
  | O => Exhausted
  | S budget' =>
      match s with
      | [] => Malformed
      | c :: r =>
          if c =? 34 then
            match scanstring r with
            | Some (v, rest) => Scanned (PyStr v) rest
            | None => Malformed
            end
          else if c =? 123 then
            match skip_whitespace r with
            | c' :: r' =>
                if c' =? 125 then Scanned (PyDict []) r'
                else parse_object budget' (c' :: r') []
            | [] => Malformed
            end
          else if c =? 91 then
            match skip_whitespace r with
            | c' :: r' =>
                if c' =? 93 then Scanned (PyList []) r'
                else parse_array budget' (c' :: r') []
            | [] => Malformed
            end
          else
            match strip_prefix (py "null") s, strip_prefix (py "true") s,
                  strip_prefix (py "false") s with
            | Some rest, _, _ => Scanned PyNone rest
            | _, Some rest, _ => Scanned (PyBool true) rest
            | _, _, Some rest => Scanned (PyBool false) rest
            | None, None, None =>
                match strip_prefix (py "NaN") s, strip_prefix (py "Infinity") s,
                      strip_prefix (py "-Infinity") s with
                | Some rest, _, _ => Scanned (PyFloat FNan) rest
                | _, Some rest, _ => Scanned (PyFloat (FInf false)) rest
                | _, _, Some rest => Scanned (PyFloat (FInf true)) rest
                | None, None, None =>
                    match match_number s with
                    | Some (v, rest) => Scanned v rest
                    | None => Malformed
                    end
                end
            end
      end
  end
with parse_object (budget : nat) (s : pystr) (acc : list (pystr * pyobj)) : scan :=
  match budget with
  | O => Exhausted
  | S budget' =>
      match s with
      | [] => Malformed
      | q :: r =>
          if negb (q =? 34) then Malformed
          else
            match scanstring r with
            | None => Malformed
            | Some (key, r1) =>
                match skip_whitespace r1 with
                | [] => Malformed
                | colon :: r2 =>
                    if negb (colon =? 58) then Malformed
                    else
                      match scan_once budget' (skip_whitespace r2) with
                      | Scanned v r3 =>
                          let acc' := dict_setitem acc key v in
                          match skip_whitespace r3 with
                          | [] => Malformed
                          | d :: r4 =>
                              if d =? 125 then Scanned (PyDict acc') r4
                              else if d =? 44 then parse_object budget' (skip_whitespace r4) acc'
                              else Malformed
                          end
                      | other => other
                      end
                end
            end
      end
  end
with parse_array (budget : nat) (s : pystr) (acc : list pyobj) : scan :=
  match budget with
  | O => Exhausted
  | S budget' =>
      match scan_once budget' s with
      | Scanned v r1 =>
          let acc' := acc ++ [v] in
          match skip_whitespace r1 with
          | [] => Malformed
          | d :: r2 =>
              if d =? 93 then Scanned (PyList acc') r2
              else if d =? 44 then parse_array budget' (skip_whitespace r2) acc'
              else Malformed
          end
      | other => other
      end
  end.

(** ** Exceptions *)

Inductive exn :=
| JSONDecodeError
| ValidationError
| TypeError
| RecursionError
| CredentialsNotParseable (msg : string).

Inductive result (A : Type) :=
| Return (a : A)
| Raise (e : exn).

Arguments Return {A} a.
Arguments Raise {A} e.

(** [json.loads(s)] for a [str]: a leading byte-order mark is refused, then
    one value is read between optional whitespace, and nothing may follow. *)
Definition json_loads (s : pystr) : result pyobj :=
  match strip_prefix [65279] s with
  | Some _ => Raise JSONDecodeError
  | None =>
      match scan_once (S (2 * List.length s)) (skip_whitespace s) with
      | Scanned v rest =>
          match skip_whitespace rest with
          | [] => Return v
          | _ :: _ => Raise JSONDecodeError
          end
      | Malformed => Raise JSONDecodeError
      | Exhausted => Raise RecursionError
      end
  end.

Definition bind {A B : Type} (r : result A) (k : A -> result B) : result B :=
  match r with
  | Return a => k a
  | Raise e => Raise e
  end.

Notation "x <- r ;; k" := (bind r (fun x => k))
  (at level 61, r at next level, right associativity).

(** [needle in o], Python's membership test with a [str] on the left: a key
    of a [dict], an item of a [list], a substring of a [str]; the other
    objects are not iterable. *)
Fixpoint str_contains (needle s : pystr) : bool :=
  match strip_prefix needle s with
  | Some _ => true
  | None =>
      match s with
      | [] => false
      | _ :: r => str_contains needle r
      end
  end.

Definition py_in (needle : pystr) (o : pyobj) : result bool :=
  match o with
  | PyDict d => Return (dict_contains needle d)
  | PyList items =>
      Return (existsb (fun x => match x with
                                | PyStr s => pystr_eqb s needle
                                | _ => false
                                end) items)
  | PyStr s => Return (str_contains needle s)
  | PyNone | PyBool _ | PyInt _ | PyFloat _ => Raise TypeError
  end.

(** ** pydantic 1.x

    A constructor called as [cls] applied to [data] unpacked into keyword
    arguments takes them from a mapping; the first
    parameter of [BaseModel.__init__] is named [__pydantic_self__], so that
    key cannot be passed.  Both failures are a [TypeError] of the call, not
    a [ValidationError]. *)
Definition kwargs (data : pyobj) : result (list (pystr * pyobj)) :=
  match data with
  | PyDict d =>
      if dict_contains (py "__pydantic_self__") d then Raise TypeError else Return d
  | _ => Raise TypeError
  end.

(** The validator of a [str] field: numbers are accepted and converted with
    [str()] ([bool] is a subclass of [int]); [None] and containers are
    refused.  [None] is a failed validation. *)
Definition str_validator (v : pyobj) : option pystr :=
  match v with
  | PyStr s => Some s
  | PyInt z => Some (int_repr z)
  | PyBool true => Some (py "True")
  | PyBool false => Some (py "False")
  | PyFloat f => Some (float_repr f)
  | PyNone | PyList _ | PyDict _ => None
  end.

(** The validator of a [Literal[expected]] field. *)
Definition literal_validator (expected : pystr) (v : pyobj) : option pystr :=
  match v with
  | PyStr s => if pystr_eqb s expected then Some expected else None
  | _ => None
  end.

(** A field with a default: the default stands in for a missing key and is
    not validated. *)
Definition optional_field {A : Type} (alias : pystr) (default : A)
    (validator : pyobj -> option A) (data : list (pystr * pyobj)) : option A :=
  match dict_get alias data with
  | None => Some default
  | Some v => validator v
  end.

(** A required field ([Field(...)]). *)
Definition required_field {A : Type} (alias : pystr)
    (validator : pyobj -> option A) (data : list (pystr * pyobj)) : option A :=
  match dict_get alias data with
  | None => None
  | Some v => validator v
  end.

Module CandidModel.
(** [token_type: Literal["macaroon"] = Field("macaroon", alias="t")],
    [value: str = Field(..., alias="v")] *)
Record t := { token_type : pystr; value : pystr }.

(** The constructor, called with the items of [data] as keyword arguments. *)
Definition init (data : pyobj) : result t :=
  d <- kwargs data ;;
  match optional_field (py "t") (py "macaroon") (literal_validator (py "macaroon")) d,
        required_field (py "v") str_validator d with
  | Some ty, Some v => Return {| token_type := ty; value := v |}
  | _, _ => Raise ValidationError
  end.

(** [CandidModel(v=s)] for a [str] (see [candid_init_of_str]). *)
Definition of_str (s : pystr) : t := {| token_type := py "macaroon"; value := s |}.

(** [self.dict(by_alias=True)] *)
Definition marshal (self : t) : pyobj :=
  PyDict (dict_of_pairs [(py "t", PyStr (token_type self)); (py "v", PyStr (value self))]).

Definition unmarshal (data : pyobj) : result t := init data.
End CandidModel.

(** [marshal_candid_credentials(candid_creds)] *)
Definition marshal_candid_credentials (candid_creds : pystr) : pystr :=
  json_dumps (CandidModel.marshal (CandidModel.of_str candid_creds)).

(** [unmarshal_candid_credentials(marshalled_creds)] *)
Definition unmarshal_candid_credentials (marshalled_creds : pystr) : result pystr :=
  data <-
    match json_loads marshalled_creds with
    | Raise JSONDecodeError =>
        (* Case (3): "opaque" serialized macaroon. *)
        Return (PyDict (dict_setitem [] (py "v") (PyStr marshalled_creds)))
    | Raise e => Raise e
    | Return creds =>
        has_type <- py_in (py "t") creds ;;
        if has_type : bool then
          (* Cases (1) and (4): dict containing the credentials type. *)
          Return creds
        else
          (* Case (2): dict without the type. *)
          Return (PyDict (dict_setitem [] (py "v") (PyStr marshalled_creds)))
    end ;;
  match CandidModel.unmarshal data with
  | Return m => Return (CandidModel.value m)
  | Raise ValidationError =>
      Raise (CredentialsNotParseable "Expected valid Candid credentials")
  | Raise e => Raise e
  end.

Module UbuntuOneMacaroons.
(** [root: str = Field(..., alias="r")],
    [discharge: str = Field(..., alias="d")].  An instance is its
    [__dict__]: the two fields, in this order, followed by whatever other
    attributes [copy(update=...)] has put there ([extra]). *)
Record t := { root : pystr; discharge : pystr; extra : list (pystr * pystr) }.

(** [UbuntuOneMacaroons(r=r, d=d)] for two [str] *)
Definition make (r d : pystr) : t := {| root := r; discharge := d; extra := [] |}.

(** [self.__dict__.items()] *)
Definition items (self : t) : list (pystr * pystr) :=
  (py "root", root self) :: (py "discharge", discharge self) :: extra self.

(** One entry of [update] written into the [__dict__] of the copy: a key
    that is already there keeps its place. *)
Definition set_item (self : t) (name value : pystr) : t :=
  if pystr_eqb name (py "root") then
    {| root := value; discharge := discharge self; extra := extra self |}
  else if pystr_eqb name (py "discharge") then
    {| root := root self; discharge := value; extra := extra self |}
  else
    {| root := root self; discharge := discharge self;
       extra := dict_setitem (extra self) name value |}.

(** [self.copy(update=update)]: the new instance gets
    [dict(self.__dict__.items(), **update)] as its [__dict__]; the keys of
    [update] are attribute names and nothing is validated. *)
Definition copy (self : t) (update : list (pystr * pystr)) : t :=
  fold_left (fun m kv => set_item m (fst kv) (snd kv)) update self.

(** [with_discharge(self, discharge)] *)
Definition with_discharge (self : t) (discharge : pystr) : t :=
  copy self (dict_setitem [] (py "d") discharge).

Definition alias (name : pystr) : pystr :=
  if pystr_eqb name (py "root") then py "r"
  else if pystr_eqb name (py "discharge") then py "d"
  else name.

(** [self.dict(by_alias=True)]: the items of [__dict__], a field under
    its alias and any other attribute under its own name, collected into
    a [dict]. *)
Definition dict_by_alias (self : t) : pyobj :=
  PyDict (dict_of_pairs (map (fun kv => (alias (fst kv), PyStr (snd kv))) (items self))).

(** The constructor, called with the items of [d] as keyword arguments,
    inside the validation of a field. *)
Definition init (d : list (pystr * pyobj)) : option t :=
  if dict_contains (py "__pydantic_self__") d then None
  else
    match required_field (py "r") str_validator d,
          required_field (py "d") str_validator d with
    | Some r, Some dis => Some (make r dis)
    | _, _ => None
    end.

(** What [dict(value)] reads from one item of a sequence: a key and a
    value, when the item is an iterable of length two.  Iterating a [str]
    gives its characters, iterating a [dict] its keys. *)
Definition pair_of_item (item : pyobj) : option (pyobj * pyobj) :=
  match item with
  | PyList [k; v] => Some (k, v)
  | PyStr [a; b] => Some (PyStr [a], PyStr [b])
  | PyDict [(k1, _); (k2, _)] => Some (PyStr k1, PyStr k2)
  | _ => None
  end.

(** [dict(value)] for a [list], as far as the constructor accepts the
    result: every item gives a pair whose key is a [str]. *)
Fixpoint dict_of_sequence (value : list pyobj) (acc : list (pystr * pyobj))
  : option (list (pystr * pyobj)) :=
  match value with
  | [] => Some acc
  | item :: more =>
      match pair_of_item item with
      | Some (PyStr k, v) => dict_of_sequence more (dict_setitem acc k v)
      | _ => None
      end
  end.

(** [cls.validate(value)], the validator of a field of this type, on a
    decoded JSON value: a [dict] goes to the constructor, anything else
    through [dict(value)] first.  Every failure on the way ([None] is not
    allowed, [dict(value)] raises, a key is not a [str], a field is
    missing or invalid) is an error of the field. *)
Definition validate (value : pyobj) : option t :=
  match value with
  | PyDict d => init d
  | PyList l =>
      match dict_of_sequence l [] with
      | Some d => init d
      | None => None
      end
  | PyStr _ | PyNone | PyBool _ | PyInt _ | PyFloat _ => None
  end.
End UbuntuOneMacaroons.

Module UbuntuOneModel.
(** [token_type: Literal["u1-macaroon"] = Field("u1-macaroon", alias="t")],
    [value: UbuntuOneMacaroons = Field(..., alias="v")] *)
Record t := { token_type : pystr; value : UbuntuOneMacaroons.t }.

(** The constructor, called with the items of [data] as keyword arguments. *)
Definition init (data : pyobj) : result t :=
  d <- kwargs data ;;
  match optional_field (py "t") (py "u1-macaroon") (literal_validator (py "u1-macaroon")) d,
        required_field (py "v") UbuntuOneMacaroons.validate d with
  | Some ty, Some v => Return {| token_type := ty; value := v |}
  | _, _ => Raise ValidationError
  end.

(** [UbuntuOneModel(v=u1_creds)] for an instance of [UbuntuOneMacaroons]:
    the validator of the field copies the instance, [__dict__] included. *)
Definition of_creds (u1_creds : UbuntuOneMacaroons.t) : t :=
  {| token_type := py "u1-macaroon"; value := u1_creds |}.

(** [self.dict(by_alias=True)] *)
Definition marshal (self : t) : pyobj :=
  PyDict (dict_of_pairs [(py "t", PyStr (token_type self));
                         (py "v", UbuntuOneMacaroons.dict_by_alias (value self))]).

Definition unmarshal (data : pyobj) : result t := init data.
End UbuntuOneModel.

(** [marshal_u1_credentials(u1_creds)] *)
Definition marshal_u1_credentials (u1_creds : UbuntuOneMacaroons.t) : pystr :=
  json_dumps (UbuntuOneModel.marshal (UbuntuOneModel.of_creds u1_creds)).

(** [unmarshal_u1_credentials(marshalled_creds)] *)
Definition unmarshal_u1_credentials (marshalled_creds : pystr)
  : result UbuntuOneMacaroons.t :=
  data <-
    match json_loads marshalled_creds with
    | Raise JSONDecodeError =>
        (* Case (3). *)
        Raise (CredentialsNotParseable "Expected valid Ubuntu One credentials")
    | Raise e => Raise e
    | Return creds =>
        has_type <- py_in (py "t") creds ;;
        if has_type : bool then
          (* Cases (1) and (4). *)
          Return creds
        else
          (* Case (2). *)
          Return (PyDict (dict_setitem [] (py "v") creds))
    end ;;
  match UbuntuOneModel.unmarshal data with
  | Return m => Return (UbuntuOneModel.value m)
  | Raise ValidationError =>
      Raise (CredentialsNotParseable "Expected valid Ubuntu One credentials")
  | Raise e => Raise e
  end.

(** ** What a string becomes when it is encoded and decoded again

    The encoder writes a code point above [0xFFFF] as two [\uXXXX] escapes
    and a lone surrogate as one; the decoder joins a high surrogate escape
    with a low surrogate escape that follows it.  So a high surrogate
    followed by a low surrogate, written as two code points, comes back as
    one code point. *)

Definition recode (c : codepoint) : codepoint :=
  if c <? 65536 then c else join_surrogates (high_unit c) (low_unit c).

Fixpoint join_pairs (s : pystr) : pystr :=
  match s with
  | [] => []
  | c :: r =>
      match r with
      | c' :: r' =>
          if is_high_surrogate c && is_low_surrogate c'
          then join_surrogates c c' :: join_pairs r'
          else recode c :: join_pairs r
      | [] => [recode c]
      end
  end.

(** A high surrogate immediately followed by a low surrogate. *)
Fixpoint has_surrogate_pair (s : pystr) : bool :=
  match s with
  | [] => false
  | c :: r =>
      match r with
      | c' :: _ => (is_high_surrogate c && is_low_surrogate c') || has_surrogate_pair r
      | [] => false
      end
  end.

(** The strings a Python [str] can hold. *)
Definition valid_str (s : pystr) : Prop := Forall valid_codepoint s.

(** ** Auxiliary notions for the proofs *)

(** The text after an escape does not start another [\u] escape. *)
Definition no_escape_u (r : pystr) : Prop :=
  match r with
  | [] => False
  | b :: r' => match r' with
               | [] => True
               | u :: _ => (b =? 92) && (u =? 117) = false
               end
  end.

Definition entry_text (kv : pystr * pyobj) : pystr :=
  encode_basestring_ascii (fst kv) ++ py ": " ++ json_dumps (snd kv).

Definition str_entry (kv : pystr * pyobj) : Prop := exists s, snd kv = PyStr s.

Definition reread (o : pyobj) : pyobj :=
  match o with
  | PyStr s => PyStr (join_pairs s)
  | _ => o
  end.

Definition reread_entries (acc items : list (pystr * pyobj)) : list (pystr * pyobj) :=
  fold_left (fun a kv => dict_setitem a (join_pairs (fst kv)) (reread (snd kv))) items acc.

(** The text of [{"t": tag, "v": value}], [vtext] being the text of the value. *)
Definition envelope_text (tag vtext : pystr) : pystr :=
  123 :: encode_basestring_ascii (py "t") ++ py ": " ++ encode_basestring_ascii tag
      ++ py ", " ++ encode_basestring_ascii (py "v") ++ py ": " ++ vtext ++ [125].

(** The [dict] that [dict(by_alias=True)] makes of an instance. *)
Definition alias_items (p : UbuntuOneMacaroons.t) : list (pystr * pyobj) :=
  dict_of_pairs (map (fun kv => (UbuntuOneMacaroons.alias (fst kv), PyStr (snd kv)))
                   (UbuntuOneMacaroons.items p)).

(** [x] is the outcome of scanning [s] within the budget: it is not
    [Exhausted], and what it leaves is shorter than [s]. *)
Definition consumes (x : scan) (s : pystr) : Prop :=
  x <> Exhausted /\
  forall v rest, x = Scanned v rest -> (List.length rest < List.length s)%nat.

(** The decoded values Python cannot search with [in]: [None], [bool],
    [int] and [float]. *)
Definition json_scalar (o : pyobj) : bool :=
  match o with
  | PyNone | PyBool _ | PyInt _ | PyFloat _ => true
  | PyStr _ | PyList _ | PyDict _ => false
  end.

(** Printable ASCII: the code points from the space to the tilde. *)
Definition printable (c : codepoint) : Prop := 32 <= c <= 126.

(** * Properties *)

Lemma pystr_eqb_refl (s : pystr) : pystr_eqb s s = true.
Proof. induction s as [|c s IH]; simpl; [reflexivity|]. now rewrite N.eqb_refl. Qed.

Lemma pystr_eqb_eq (a b : pystr) : pystr_eqb a b = true <-> a = b.
Proof.
  split; [|intros ->; apply pystr_eqb_refl].
  revert b; induction a as [|x a IH]; intros [|y b]; simpl; try discriminate; auto.
  intros H. apply andb_prop in H as [H1 H2].
  apply N.eqb_eq in H1. f_equal; auto.
Qed.

Lemma hex_value_digit (n : N) : n < 16 -> hex_value (hex_digit n) = Some n.
Proof.
  intros H. unfold hex_value, hex_digit, is_digit.
  destruct (N.ltb_spec n 10).
  - replace ((48 <=? 48 + n) && (48 + n <=? 57)) with true.
    + f_equal; lia.
    + symmetry; apply andb_true_intro; split; apply N.leb_le; lia.
  - replace ((48 <=? 87 + n) && (87 + n <=? 57)) with false.
    + replace ((97 <=? 87 + n) && (87 + n <=? 102)) with true.
      * f_equal; lia.
      * symmetry; apply andb_true_intro; split; apply N.leb_le; lia.
    + symmetry; apply andb_false_intro2; apply N.leb_gt; lia.
Qed.

Lemma land_15_lt (x : N) : N.land x 15 < 16.
Proof. change 15 with (N.ones 4). rewrite N.land_ones. apply N.mod_lt. discriminate. Qed.

Lemma decode_hex4_hex4 (x : N) :
  x < 65536 ->
  decode_hex4 (hex_digit (N.land (N.shiftr x 12) 15)) (hex_digit (N.land (N.shiftr x 8) 15))
              (hex_digit (N.land (N.shiftr x 4) 15)) (hex_digit (N.land x 15)) = Some x.
Proof.
  intros H. unfold decode_hex4.
  rewrite !hex_value_digit by apply land_15_lt.
  f_equal.
  change 15 with (N.ones 4). rewrite !N.land_ones, !N.shiftr_div_pow2.
  change (2 ^ 12) with (16 * 16 * 16). change (2 ^ 8) with (16 * 16). change (2 ^ 4) with 16.
  rewrite <- !N.Div0.div_div.
  pose proof (N.div_mod x 16 ltac:(discriminate)) as E0.
  pose proof (N.div_mod (x / 16) 16 ltac:(discriminate)) as E1.
  pose proof (N.div_mod (x / 16 / 16) 16 ltac:(discriminate)) as E2.
  pose proof (N.mod_lt x 16 ltac:(discriminate)).
  pose proof (N.mod_lt (x / 16) 16 ltac:(discriminate)).
  pose proof (N.mod_lt (x / 16 / 16) 16 ltac:(discriminate)).
  assert (x / 16 / 16 / 16 < 16) by (repeat (apply N.Div0.div_lt_upper_bound); lia).
  rewrite (N.mod_small (x / 16 / 16 / 16)) by assumption.
  pose proof (N.div_mod (x / 16 / 16) 16 ltac:(discriminate)).
  lia.
Qed.

Lemma lor_shiftl_add (h l k : N) : l < 2 ^ k -> N.lor (N.shiftl h k) l = h * 2 ^ k + l.
Proof.
  intros Hl.
  assert (Z0 : N.land (N.shiftl h k) l = 0).
  { apply N.bits_inj_0. intros i. rewrite N.land_spec.
    destruct (N.lt_ge_cases i k) as [Hi|Hi].
    - now rewrite N.shiftl_spec_low.
    - destruct (N.eq_dec l 0) as [->|Hn].
      + now rewrite N.bits_0, andb_false_r.
      + rewrite (N.bits_above_log2 l i), andb_false_r; [reflexivity|].
        apply N.log2_lt_pow2 in Hl; lia. }
  rewrite <- N.lxor_lor, <- N.add_nocarry_lxor by assumption.
  now rewrite N.shiftl_mul_pow2.
Qed.

Lemma land_1023_lt (x : N) : N.land x 1023 < 1024.
Proof. change 1023 with (N.ones 10). rewrite N.land_ones. apply N.mod_lt. discriminate. Qed.

Lemma lor_unit (b h : N) : h < 1024 -> N.lor (b * 1024) h = b * 1024 + h.
Proof.
  intros Hh. pose proof (lor_shiftl_add b h 10 Hh) as E.
  rewrite N.shiftl_mul_pow2 in E. exact E.
Qed.

Lemma high_unit_eq (c : codepoint) :
  high_unit c = 55296 + N.land (N.shiftr (c - 65536) 10) 1023.
Proof. unfold high_unit. apply (lor_unit 54). apply land_1023_lt. Qed.

Lemma low_unit_eq (c : codepoint) : low_unit c = 56320 + N.land (c - 65536) 1023.
Proof. unfold low_unit. apply (lor_unit 55). apply land_1023_lt. Qed.

Lemma high_unit_range (c : codepoint) : 55296 <= high_unit c <= 56319.
Proof.
  rewrite high_unit_eq. pose proof (land_1023_lt (N.shiftr (c - 65536) 10)). lia.
Qed.

Lemma low_unit_range (c : codepoint) : 56320 <= low_unit c <= 57343.
Proof. rewrite low_unit_eq. pose proof (land_1023_lt (c - 65536)). lia. Qed.

Lemma land_unit (b h : N) : h < 1024 -> N.land (b * 1024 + h) 1023 = h.
Proof.
  intros Hh. change 1023 with (N.ones 10). rewrite N.land_ones.
  change (2 ^ 10) with 1024.
  rewrite N.add_comm, N.Div0.mod_add. now apply N.mod_small.
Qed.

Lemma recode_valid (c : codepoint) : valid_codepoint c -> recode c = c.
Proof.
  unfold valid_codepoint, recode. intros Hc.
  destruct (N.ltb_spec c 65536) as [|Hge]; [reflexivity|].
  unfold join_surrogates. rewrite high_unit_eq, low_unit_eq.
  rewrite (land_unit 54), (land_unit 55) by apply land_1023_lt.
  rewrite lor_shiftl_add by apply land_1023_lt.
  change 1023 with (N.ones 10). rewrite !N.land_ones, N.shiftr_div_pow2.
  change (2 ^ 10) with 1024.
  assert ((c - 65536) / 1024 < 1024) by (apply N.Div0.div_lt_upper_bound; lia).
  rewrite (N.mod_small ((c - 65536) / 1024)) by assumption.
  pose proof (N.div_mod (c - 65536) 1024 ltac:(discriminate)). lia.
Qed.

(** *** Reading back what the encoder wrote *)

Lemma scanstring_plain (c : codepoint) (r : pystr) :
  c <> 34 -> 31 < c -> c <> 92 -> scanstring (c :: r) = emit c (scanstring r).
Proof.
  intros H1 H2 H3. simpl.
  apply N.eqb_neq in H1, H3. rewrite H1, H3.
  apply N.leb_gt in H2. now rewrite H2.
Qed.

Lemma scanstring_simple (e c : codepoint) (r : pystr) :
  e <> 117 -> simple_escape e = Some c ->
  scanstring (92 :: e :: r) = emit c (scanstring r).
Proof.
  intros H1 H2. cbn -[simple_escape]. apply N.eqb_neq in H1. now rewrite H1, H2.
Qed.

Lemma scanstring_u (h1 h2 h3 h4 u : codepoint) (r : pystr) :
  decode_hex4 h1 h2 h3 h4 = Some u -> is_high_surrogate u = false ->
  scanstring (92 :: 117 :: h1 :: h2 :: h3 :: h4 :: r) = emit u (scanstring r).
Proof. intros H1 H2. cbn -[decode_hex4 is_high_surrogate]. now rewrite H1, H2. Qed.

Lemma scanstring_u_pair (h1 h2 h3 h4 l1 l2 l3 l4 u u2 : codepoint) (r : pystr) :
  decode_hex4 h1 h2 h3 h4 = Some u -> is_high_surrogate u = true ->
  decode_hex4 l1 l2 l3 l4 = Some u2 -> is_low_surrogate u2 = true ->
  scanstring (92 :: 117 :: h1 :: h2 :: h3 :: h4 :: 92 :: 117 :: l1 :: l2 :: l3 :: l4 :: r)
  = emit (join_surrogates u u2) (scanstring r).
Proof.
  intros H1 H2 H3 H4.
  cbn -[decode_hex4 is_high_surrogate is_low_surrogate join_surrogates].
  now rewrite H1, H2, H3, H4.
Qed.

Lemma scanstring_u_again (h1 h2 h3 h4 l1 l2 l3 l4 u u2 : codepoint) (r : pystr) :
  decode_hex4 h1 h2 h3 h4 = Some u -> is_high_surrogate u = true ->
  decode_hex4 l1 l2 l3 l4 = Some u2 -> is_low_surrogate u2 = false ->
  scanstring (92 :: 117 :: h1 :: h2 :: h3 :: h4 :: 92 :: 117 :: l1 :: l2 :: l3 :: l4 :: r)
  = emit u (scanstring (92 :: 117 :: l1 :: l2 :: l3 :: l4 :: r)).
Proof.
  intros H1 H2 H3 H4.
  cbn -[decode_hex4 is_high_surrogate is_low_surrogate join_surrogates].
  now rewrite H1, H2, H3, H4.
Qed.

Lemma scanstring_u_alone (h1 h2 h3 h4 u : codepoint) (r : pystr) :
  decode_hex4 h1 h2 h3 h4 = Some u -> no_escape_u r ->
  scanstring (92 :: 117 :: h1 :: h2 :: h3 :: h4 :: r) = emit u (scanstring r).
Proof.
  intros H1 H2.
  destruct (is_high_surrogate u) eqn:Hh; [|now apply scanstring_u].
  destruct r as [|b [|u' r']]; [destruct H2| |].
  - cbn -[decode_hex4 is_high_surrogate]. now rewrite H1, Hh.
  - simpl in H2.
    change (scanstring (92 :: 117 :: h1 :: h2 :: h3 :: h4 :: b :: u' :: r'))
      with (match decode_hex4 h1 h2 h3 h4 with
            | None => None
            | Some u =>
                if is_high_surrogate u then
                  if (b =? 92) && (u' =? 117) then
                    match r' with
                    | l1 :: l2 :: l3 :: l4 :: r5 =>
                        match decode_hex4 l1 l2 l3 l4 with
                        | None => None
                        | Some u2 =>
                            if is_low_surrogate u2
                            then emit (join_surrogates u u2) (scanstring r5)
                            else emit u (scanstring (b :: u' :: r'))
                        end
                    | _ => None
                    end
                  else emit u (scanstring (b :: u' :: r'))
                else emit u (scanstring (b :: u' :: r'))
            end).
    now rewrite H1, Hh, H2.
Qed.

Lemma escape_char_cases (c : codepoint) :
  (c < 128 /\ exists e, e <> 117 /\ simple_escape e = Some c /\ escape_char c = [92; e]) \/
  (c < 128 /\ c <> 34 /\ 31 < c /\ c <> 92 /\ escape_char c = [c]) \/
  (c < 65536 /\ escape_char c = escape_u c) \/
  (65536 <= c /\ escape_char c = escape_u (high_unit c) ++ escape_u (low_unit c)).
Proof.
  unfold escape_char.
  destruct (N.eqb_spec c 34) as [->|N1].
  { left; split; [lia|]. exists 34. repeat split; discriminate. }
  destruct (N.eqb_spec c 92) as [->|N2].
  { left; split; [lia|]. exists 92. repeat split; discriminate. }
  destruct (N.eqb_spec c 10) as [->|N3].
  { left; split; [lia|]. exists 110. repeat split; discriminate. }
  destruct (N.eqb_spec c 13) as [->|N4].
  { left; split; [lia|]. exists 114. repeat split; discriminate. }
  destruct (N.eqb_spec c 9) as [->|N5].
  { left; split; [lia|]. exists 116. repeat split; discriminate. }
  destruct (N.eqb_spec c 12) as [->|N6].
  { left; split; [lia|]. exists 102. repeat split; discriminate. }
  destruct (N.eqb_spec c 8) as [->|N7].
  { left; split; [lia|]. exists 98. repeat split; discriminate. }
  destruct (N.leb_spec 32 c) as [L1|L1]; cbn [andb].
  - destruct (N.leb_spec c 126) as [L2|L2]; cbn [andb].
    + right; left. repeat split; trivial; lia.
    + destruct (N.ltb_spec c 65536); [right; right; left | right; right; right]; auto.
  - right; right; left. destruct (N.ltb_spec c 65536); [auto | lia].
Qed.

Lemma is_high_surrogate_spec (c : codepoint) :
  is_high_surrogate c = true <-> 55296 <= c <= 56319.
Proof. unfold is_high_surrogate. rewrite andb_true_iff, !N.leb_le. tauto. Qed.

Lemma is_low_surrogate_spec (c : codepoint) :
  is_low_surrogate c = true <-> 56320 <= c <= 57343.
Proof. unfold is_low_surrogate. rewrite andb_true_iff, !N.leb_le. tauto. Qed.

Lemma not_high_surrogate (c : codepoint) :
  c < 55296 \/ 56319 < c -> is_high_surrogate c = false.
Proof.
  intros H. destruct (is_high_surrogate c) eqn:E; [|reflexivity].
  apply is_high_surrogate_spec in E. lia.
Qed.

Lemma not_low_surrogate (c : codepoint) :
  c < 56320 \/ 57343 < c -> is_low_surrogate c = false.
Proof.
  intros H. destruct (is_low_surrogate c) eqn:E; [|reflexivity].
  apply is_low_surrogate_spec in E. lia.
Qed.

Lemma recode_small (c : codepoint) : c < 65536 -> recode c = c.
Proof. intros H. unfold recode. apply N.ltb_lt in H. now rewrite H. Qed.

Lemma join_pairs_not_high (c : codepoint) (s : pystr) :
  is_high_surrogate c = false -> join_pairs (c :: s) = recode c :: join_pairs s.
Proof. intros H. destruct s; simpl; now rewrite ?H. Qed.

Lemma join_pairs_not_low (c c' : codepoint) (s : pystr) :
  is_low_surrogate c' = false ->
  join_pairs (c :: c' :: s) = recode c :: join_pairs (c' :: s).
Proof.
  intros H. change (join_pairs (c :: c' :: s))
    with (if is_high_surrogate c && is_low_surrogate c'
          then join_surrogates c c' :: join_pairs s
          else recode c :: join_pairs (c' :: s)).
  now rewrite H, andb_false_r.
Qed.

Lemma join_pairs_pair (c c' : codepoint) (s : pystr) :
  is_high_surrogate c = true -> is_low_surrogate c' = true ->
  join_pairs (c :: c' :: s) = join_surrogates c c' :: join_pairs s.
Proof. intros H H'. simpl. now rewrite H, H'. Qed.

Lemma escape_u_app (x : N) (r : pystr) :
  escape_u x ++ r =
  92 :: 117 :: hex_digit (N.land (N.shiftr x 12) 15) :: hex_digit (N.land (N.shiftr x 8) 15)
     :: hex_digit (N.land (N.shiftr x 4) 15) :: hex_digit (N.land x 15) :: r.
Proof. reflexivity. Qed.

Lemma escape_chars_cons (c : codepoint) (s rest : pystr) :
  escape_chars (c :: s) ++ rest = escape_char c ++ escape_chars s ++ rest.
Proof. unfold escape_chars. simpl. now rewrite <- app_assoc. Qed.

Lemma scanstring_escape_chars (s rest : pystr) :
  scanstring (escape_chars s ++ 34 :: rest) = Some (join_pairs s, rest).
Proof.
  remember (List.length s) as n eqn:Hn.
  assert (Hle : (List.length s <= n)%nat) by lia. clear Hn.
  revert s Hle rest. induction n as [|n IH]; intros s Hle rest.
  { destruct s; [reflexivity | simpl in Hle; lia]. }
  destruct s as [|c s']; [reflexivity|].
  simpl in Hle. assert (Hs' : (List.length s' <= n)%nat) by lia.
  rewrite escape_chars_cons.
  destruct (escape_char_cases c) as [(Hc & e & He & Hse & ->)|[(Hc & N1 & N2 & N3 & ->)|[(Hc & ->)|(Hc & ->)]]].
  - simpl app. rewrite (scanstring_simple e c) by assumption.
    rewrite IH by assumption.
    rewrite join_pairs_not_high by (apply not_high_surrogate; lia).
    rewrite recode_small by lia. reflexivity.
  - simpl app. rewrite scanstring_plain by assumption.
    rewrite IH by assumption.
    rewrite join_pairs_not_high by (apply not_high_surrogate; lia).
    rewrite recode_small by lia. reflexivity.
  - rewrite escape_u_app.
    pose proof (decode_hex4_hex4 c Hc) as Hd.
    destruct (is_high_surrogate c) eqn:Hh.
    2:{ rewrite (scanstring_u _ _ _ _ c) by assumption.
        rewrite IH by assumption.
        rewrite join_pairs_not_high, recode_small by assumption. reflexivity. }
    destruct s' as [|c' s''].
    { rewrite (scanstring_u_alone _ _ _ _ c) by (try assumption; destruct rest; simpl; auto).
      simpl. rewrite recode_small by assumption. reflexivity. }
    simpl in Hs'.
    rewrite escape_chars_cons.
    destruct (escape_char_cases c') as [(Hc' & e & He & Hse & E)|[(Hc' & N1 & N2 & N3 & E)|[(Hc' & E)|(Hc' & E)]]];
      rewrite E.
    + rewrite (scanstring_u_alone _ _ _ _ c);
        [|assumption| simpl; apply N.eqb_neq in He; now rewrite He].
      rewrite <- E, <- escape_chars_cons, IH by (simpl; lia).
      rewrite join_pairs_not_low by (apply not_low_surrogate; lia).
      rewrite recode_small by assumption. reflexivity.
    + rewrite (scanstring_u_alone _ _ _ _ c);
        [|assumption| simpl; destruct (escape_chars s'' ++ 34 :: rest); auto;
                      apply N.eqb_neq in N3; now rewrite N3].
      rewrite <- E, <- escape_chars_cons, IH by (simpl; lia).
      rewrite join_pairs_not_low by (apply not_low_surrogate; lia).
      rewrite recode_small by assumption. reflexivity.
    + rewrite escape_u_app.
      pose proof (decode_hex4_hex4 c' Hc') as Hd'.
      destruct (is_low_surrogate c') eqn:Hl.
      * rewrite (scanstring_u_pair _ _ _ _ _ _ _ _ c c') by assumption.
        rewrite IH by lia. rewrite join_pairs_pair by assumption. reflexivity.
      * rewrite (scanstring_u_again _ _ _ _ _ _ _ _ c c') by assumption.
        rewrite <- escape_u_app, <- E, <- escape_chars_cons, IH by (simpl; lia).
        rewrite join_pairs_not_low, recode_small by assumption. reflexivity.
    + rewrite <- app_assoc, escape_u_app.
      pose proof (high_unit_range c') as Hr.
      assert (Hd' := decode_hex4_hex4 (high_unit c') ltac:(lia)).
      rewrite (scanstring_u_again _ _ _ _ _ _ _ _ c (high_unit c'));
        [|assumption|assumption|assumption|apply not_low_surrogate; lia].
      rewrite <- escape_u_app, app_assoc, <- E, <- escape_chars_cons, IH by (simpl; lia).
      rewrite join_pairs_not_low by (apply not_low_surrogate; lia).
      rewrite recode_small by assumption. reflexivity.
  - rewrite <- app_assoc, escape_u_app, escape_u_app.
    pose proof (high_unit_range c) as Hr. pose proof (low_unit_range c) as Hr'.
    assert (Hd := decode_hex4_hex4 (high_unit c) ltac:(lia)).
    assert (Hd' := decode_hex4_hex4 (low_unit c) ltac:(lia)).
    rewrite (scanstring_u_pair _ _ _ _ _ _ _ _ (high_unit c) (low_unit c));
      [|assumption|apply is_high_surrogate_spec; lia|assumption|apply is_low_surrogate_spec; lia].
    rewrite IH by assumption.
    rewrite join_pairs_not_high by (apply not_high_surrogate; lia).
    unfold recode. replace (c <? 65536) with false by (symmetry; apply N.ltb_ge; lia).
    reflexivity.
Qed.

Lemma join_pairs_id (s : pystr) :
  valid_str s -> has_surrogate_pair s = false -> join_pairs s = s.
Proof.
  unfold valid_str. induction s as [|c s IH]; intros Hv Hp; [reflexivity|].
  inversion Hv as [|? ? Hc Hs]; subst.
  destruct s as [|c' s'].
  - simpl. now rewrite recode_valid.
  - change (has_surrogate_pair (c :: c' :: s'))
      with ((is_high_surrogate c && is_low_surrogate c') || has_surrogate_pair (c' :: s')) in Hp.
    apply orb_false_elim in Hp as [Hp1 Hp2].
    change (join_pairs (c :: c' :: s'))
      with (if is_high_surrogate c && is_low_surrogate c'
            then join_surrogates c c' :: join_pairs s'
            else recode c :: join_pairs (c' :: s')).
    rewrite Hp1, recode_valid, IH by assumption. reflexivity.
Qed.

(** *** Reading back objects *)

Lemma skip_whitespace_cons (c : codepoint) (r : pystr) :
  is_whitespace c = false -> skip_whitespace (c :: r) = c :: r.
Proof. intros H. simpl. now rewrite H. Qed.

Lemma encode_app (s rest : pystr) :
  encode_basestring_ascii s ++ rest = 34 :: escape_chars s ++ 34 :: rest.
Proof. unfold encode_basestring_ascii. simpl. now rewrite <- app_assoc. Qed.

Lemma scan_once_string (b : nat) (s rest : pystr) :
  scan_once (S b) (encode_basestring_ascii s ++ rest) = Scanned (PyStr (join_pairs s)) rest.
Proof.
  rewrite encode_app.
  change (scan_once (S b) (34 :: escape_chars s ++ 34 :: rest))
    with (match scanstring (escape_chars s ++ 34 :: rest) with
          | Some (v, rest') => Scanned (PyStr v) rest'
          | None => Malformed
          end).
  now rewrite scanstring_escape_chars.
Qed.

Lemma parse_object_eq (b : nat) (q : codepoint) (r : pystr) (acc : list (pystr * pyobj)) :
  parse_object (S b) (q :: r) acc =
  if negb (q =? 34) then Malformed
  else
    match scanstring r with
    | None => Malformed
    | Some (key, r1) =>
        match skip_whitespace r1 with
        | [] => Malformed
        | colon :: r2 =>
            if negb (colon =? 58) then Malformed
            else
              match scan_once b (skip_whitespace r2) with
              | Scanned v r3 =>
                  match skip_whitespace r3 with
                  | [] => Malformed
                  | d :: r4 =>
                      if d =? 125 then Scanned (PyDict (dict_setitem acc key v)) r4
                      else if d =? 44
                           then parse_object b (skip_whitespace r4) (dict_setitem acc key v)
                           else Malformed
                  end
              | other => other
              end
        end
    end.
Proof. reflexivity. Qed.

(** One [key: value] entry of an object, [vtext] being the text of the value. *)
Lemma parse_object_entry (b : nat) (k vtext r : pystr) (v : pyobj) (acc : list (pystr * pyobj)) :
  skip_whitespace (vtext ++ r) = vtext ++ r ->
  scan_once b (vtext ++ r) = Scanned v r ->
  parse_object (S b) (encode_basestring_ascii k ++ py ": " ++ vtext ++ r) acc =
  match skip_whitespace r with
  | [] => Malformed
  | d :: r4 =>
      if d =? 125 then Scanned (PyDict (dict_setitem acc (join_pairs k) v)) r4
      else if d =? 44
           then parse_object b (skip_whitespace r4) (dict_setitem acc (join_pairs k) v)
           else Malformed
  end.
Proof.
  intros Hws Hv. rewrite encode_app, parse_object_eq.
  change (negb (34 =? 34)) with false. cbv iota.
  rewrite scanstring_escape_chars.
  change (py ": " ++ vtext ++ r) with (58 :: 32 :: vtext ++ r).
  rewrite (skip_whitespace_cons 58) by reflexivity.
  change (negb (58 =? 58)) with false. cbv iota.
  change (skip_whitespace (32 :: vtext ++ r)) with (skip_whitespace (vtext ++ r)).
  rewrite Hws, Hv. reflexivity.
Qed.

Lemma json_dumps_dict (items : list (pystr * pyobj)) :
  json_dumps (PyDict items) = 123 :: join (py ", ") (map entry_text items) ++ [125].
Proof. reflexivity. Qed.

Lemma join_cons2 (sep p q : pystr) (more : list pystr) :
  join sep (p :: q :: more) = p ++ sep ++ join sep (q :: more).
Proof. reflexivity. Qed.

Lemma join_length (sep : pystr) (parts : list pystr) :
  Forall (fun p => p <> []) parts ->
  (List.length parts <= List.length (join sep parts))%nat.
Proof.
  induction parts as [|p parts IH]; intros H; [apply Nat.le_0_l|].
  inversion H as [|? ? Hp Hps]; subst.
  specialize (IH Hps).
  destruct parts as [|q more].
  - change (join sep [p]) with p. destruct p; [congruence|]. cbn [List.length]. lia.
  - rewrite join_cons2, !length_app. destruct p; [congruence|].
    cbn [List.length] in *. lia.
Qed.

Lemma entry_text_head (kv : pystr * pyobj) :
  entry_text kv = 34 :: escape_chars (fst kv) ++ 34 :: py ": " ++ json_dumps (snd kv).
Proof. unfold entry_text. apply encode_app. Qed.

Lemma entry_text_length (items : list (pystr * pyobj)) :
  (List.length items <= List.length (join (py ", ") (map entry_text items)))%nat.
Proof.
  rewrite <- (length_map entry_text items) at 1.
  apply join_length. apply Forall_forall. intros p Hp.
  apply in_map_iff in Hp as (kv & <- & _). rewrite entry_text_head. discriminate.
Qed.

Lemma entries_head (items : list (pystr * pyobj)) (rest : pystr) :
  items <> [] ->
  exists t, join (py ", ") (map entry_text items) ++ rest = 34 :: t.
Proof.
  intros Hne. destruct items as [|kv [|kv' more]]; [congruence| |].
  - change (join (py ", ") (map entry_text [kv])) with (entry_text kv).
    rewrite entry_text_head. eexists; reflexivity.
  - change (map entry_text (kv :: kv' :: more))
      with (entry_text kv :: entry_text kv' :: map entry_text more).
    rewrite join_cons2, entry_text_head. eexists; reflexivity.
Qed.

Lemma skip_whitespace_entries (items : list (pystr * pyobj)) (rest : pystr) :
  items <> [] ->
  skip_whitespace (join (py ", ") (map entry_text items) ++ rest)
  = join (py ", ") (map entry_text items) ++ rest.
Proof.
  intros Hne. destruct (entries_head items rest Hne) as [t ->]. reflexivity.
Qed.

Lemma str_entry_text (k s : pystr) (rest : pystr) :
  entry_text (k, PyStr s) ++ rest
  = encode_basestring_ascii k ++ py ": " ++ encode_basestring_ascii s ++ rest.
Proof.
  unfold entry_text. cbn [fst snd].
  change (json_dumps (PyStr s)) with (encode_basestring_ascii s).
  now rewrite <- !app_assoc.
Qed.

Lemma parse_object_str_entry (b : nat) (k s r : pystr) (acc : list (pystr * pyobj)) :
  parse_object (S (S b)) (entry_text (k, PyStr s) ++ r) acc =
  match skip_whitespace r with
  | [] => Malformed
  | d :: r4 =>
      if d =? 125
      then Scanned (PyDict (dict_setitem acc (join_pairs k) (PyStr (join_pairs s)))) r4
      else if d =? 44
           then parse_object (S b) (skip_whitespace r4)
                  (dict_setitem acc (join_pairs k) (PyStr (join_pairs s)))
           else Malformed
  end.
Proof.
  rewrite str_entry_text.
  apply parse_object_entry.
  - rewrite encode_app. reflexivity.
  - apply scan_once_string.
Qed.

Lemma parse_object_flat (items : list (pystr * pyobj)) :
  items <> [] -> Forall str_entry items ->
  forall (acc : list (pystr * pyobj)) (b : nat) (rest : pystr),
    (List.length items < b)%nat ->
    parse_object b (join (py ", ") (map entry_text items) ++ 125 :: rest) acc
    = Scanned (PyDict (reread_entries acc items)) rest.
Proof.
  induction items as [|[k v] items' IH]; [congruence|].
  intros _ Hall acc b rest Hb.
  inversion Hall as [|? ? [s Hs] Hall']; subst. cbn [snd] in Hs; subst v.
  destruct b as [|[|b]]; cbn [List.length] in Hb; try lia.
  destruct items' as [|kv' more].
  - change (join (py ", ") (map entry_text [(k, PyStr s)])) with (entry_text (k, PyStr s)).
    rewrite parse_object_str_entry. reflexivity.
  - change (map entry_text ((k, PyStr s) :: kv' :: more))
      with (entry_text (k, PyStr s) :: map entry_text (kv' :: more)).
    change (map entry_text (kv' :: more))
      with (entry_text kv' :: map entry_text more) at 1.
    rewrite join_cons2.
    change (entry_text kv' :: map entry_text more) with (map entry_text (kv' :: more)).
    rewrite <- !app_assoc.
    rewrite parse_object_str_entry.
    change (py ", " ++ ?x) with (44 :: 32 :: x).
    rewrite (skip_whitespace_cons 44) by reflexivity.
    change (44 =? 125) with false. change (44 =? 44) with true. cbv iota.
    change (skip_whitespace (32 :: ?x)) with (skip_whitespace x).
    rewrite skip_whitespace_entries by discriminate.
    rewrite IH; [reflexivity|discriminate|assumption|cbn [List.length] in *; lia].
Qed.

Lemma scan_once_eq_object (b : nat) (r : pystr) :
  scan_once (S b) (123 :: r) =
  match skip_whitespace r with
  | c' :: r' =>
      if c' =? 125 then Scanned (PyDict []) r' else parse_object b (c' :: r') []
  | [] => Malformed
  end.
Proof. reflexivity. Qed.

Lemma scan_once_flat_dict (items : list (pystr * pyobj)) (b : nat) (rest : pystr) :
  items <> [] -> Forall str_entry items -> (List.length items + 2 <= b)%nat ->
  scan_once b (json_dumps (PyDict items) ++ rest)
  = Scanned (PyDict (reread_entries [] items)) rest.
Proof.
  intros Hne Hall Hb. destruct b as [|b]; [lia|].
  rewrite json_dumps_dict.
  change ((123 :: ?x ++ [125]) ++ rest) with (123 :: ((x ++ [125]) ++ rest)).
  rewrite <- app_assoc. change ([125] ++ rest) with (125 :: rest).
  rewrite scan_once_eq_object.
  destruct (entries_head items (125 :: rest) Hne) as [t Ht].
  rewrite Ht, (skip_whitespace_cons 34) by reflexivity.
  change (34 =? 125) with false. cbv iota.
  assert (E : parse_object b (join (py ", ") (map entry_text items) ++ 125 :: rest) []
              = Scanned (PyDict (reread_entries [] items)) rest)
    by (apply parse_object_flat; [assumption|assumption|lia]).
  rewrite Ht in E. exact E.
Qed.

Lemma json_dumps_envelope (tag : pystr) (o : pyobj) :
  json_dumps (PyDict (dict_of_pairs [(py "t", PyStr tag); (py "v", o)]))
  = envelope_text tag (json_dumps o).
Proof.
  unfold envelope_text.
  change (dict_of_pairs [(py "t", PyStr tag); (py "v", o)])
    with [(py "t", PyStr tag); (py "v", o)].
  rewrite json_dumps_dict. simpl map. rewrite join_cons2. simpl join.
  unfold entry_text. simpl fst. simpl snd.
  change (json_dumps (PyStr tag)) with (encode_basestring_ascii tag).
  rewrite <- !app_assoc. reflexivity.
Qed.

Lemma scan_once_envelope (b : nat) (tag vtext rest : pystr) (v : pyobj) :
  skip_whitespace (vtext ++ 125 :: rest) = vtext ++ 125 :: rest ->
  scan_once b (vtext ++ 125 :: rest) = Scanned v (125 :: rest) ->
  scan_once (S (S (S b))) (envelope_text tag vtext ++ rest)
  = Scanned (PyDict [(py "t", PyStr (join_pairs tag)); (py "v", v)]) rest.
Proof.
  intros Hws Hv. unfold envelope_text.
  change ((123 :: ?x) ++ rest) with (123 :: (x ++ rest)).
  rewrite <- !app_assoc.
  rewrite scan_once_eq_object.
  rewrite (encode_app (py "t")). rewrite (skip_whitespace_cons 34) by reflexivity.
  change (34 =? 125) with false. cbv iota.
  rewrite <- (encode_app (py "t")).
  rewrite parse_object_entry with (v := PyStr (join_pairs tag));
    [|now rewrite encode_app|apply scan_once_string].
  change (py ", " ++ ?x) with (44 :: 32 :: x).
  rewrite (skip_whitespace_cons 44) by reflexivity.
  change (44 =? 125) with false. change (44 =? 44) with true. cbv iota.
  change (skip_whitespace (32 :: ?x)) with (skip_whitespace x).
  rewrite (encode_app (py "v")). rewrite (skip_whitespace_cons 34) by reflexivity.
  rewrite <- (encode_app (py "v")).
  change ([125] ++ rest) with (125 :: rest).
  rewrite parse_object_entry with (v := v); [|assumption|assumption].
  reflexivity.
Qed.

Lemma json_loads_envelope (tag vtext : pystr) (v : pyobj) (n : nat) :
  (forall rest, skip_whitespace (vtext ++ rest) = vtext ++ rest) ->
  (forall b rest, (n <= b)%nat -> scan_once b (vtext ++ rest) = Scanned v rest) ->
  (n <= List.length vtext)%nat ->
  json_loads (envelope_text tag vtext)
  = Return (PyDict [(py "t", PyStr (join_pairs tag)); (py "v", v)]).
Proof.
  intros Hws Hv Hn. unfold json_loads.
  change (strip_prefix [65279] (envelope_text tag vtext)) with (@None pystr).
  change (skip_whitespace (envelope_text tag vtext)) with (envelope_text tag vtext).
  assert (Hlen : (n + 2 <= 2 * List.length (envelope_text tag vtext))%nat).
  { unfold envelope_text. cbn [List.length]. rewrite !length_app. lia. }
  remember (2 * List.length (envelope_text tag vtext))%nat as m eqn:Hm. clear Hm.
  destruct m as [|[|b]]; [lia|lia|].
  rewrite <- (app_nil_r (envelope_text tag vtext)).
  rewrite scan_once_envelope with (v := v); [reflexivity|apply Hws|apply Hv; lia].
Qed.

(** *** The codecs *)

Lemma marshal_candid_text (v : pystr) :
  marshal_candid_credentials v = envelope_text (py "macaroon") (encode_basestring_ascii v).
Proof.
  unfold marshal_candid_credentials, CandidModel.marshal, CandidModel.of_str.
  simpl CandidModel.token_type. simpl CandidModel.value.
  apply json_dumps_envelope.
Qed.

Lemma json_loads_marshal_candid (v : pystr) :
  json_loads (marshal_candid_credentials v)
  = Return (PyDict [(py "t", PyStr (py "macaroon")); (py "v", PyStr (join_pairs v))]).
Proof.
  rewrite marshal_candid_text.
  rewrite json_loads_envelope with (v := PyStr (join_pairs v)) (n := 1%nat).
  - reflexivity.
  - intros rest. now rewrite encode_app.
  - intros [|b] rest Hb; [lia|]. apply scan_once_string.
  - unfold encode_basestring_ascii. simpl. lia.
Qed.

Lemma unmarshal_marshal_candid (v : pystr) :
  unmarshal_candid_credentials (marshal_candid_credentials v) = Return (join_pairs v).
Proof.
  unfold unmarshal_candid_credentials. rewrite json_loads_marshal_candid. reflexivity.
Qed.

Lemma dict_setitem_nonempty {V : Type} (d : list (pystr * V)) (k : pystr) (v : V) :
  dict_setitem d k v <> [].
Proof. destruct d as [|[k' v'] d']; simpl; [discriminate|]. destruct (pystr_eqb k k'); discriminate. Qed.

Lemma dict_setitem_str_entries (d : list (pystr * pyobj)) (k s : pystr) :
  Forall str_entry d -> Forall str_entry (dict_setitem d k (PyStr s)).
Proof.
  induction d as [|[k' v'] d' IH]; intros H; simpl.
  - constructor; [now exists s|constructor].
  - inversion H; subst. destruct (pystr_eqb k k'); constructor; auto. now exists s.
Qed.

Lemma dict_of_pairs_str_entries (pairs : list (pystr * pystr)) (f : pystr -> pystr) :
  Forall str_entry (dict_of_pairs (map (fun kv => (f (fst kv), PyStr (snd kv))) pairs)).
Proof.
  unfold dict_of_pairs.
  assert (G : forall acc, Forall str_entry acc ->
                          Forall str_entry
                            (fold_left (fun d kv => dict_setitem d (fst kv) (snd kv))
                               (map (fun kv => (f (fst kv), PyStr (snd kv))) pairs) acc)).
  { induction pairs as [|kv pairs IH]; intros acc Hacc; simpl; [assumption|].
    apply IH. now apply dict_setitem_str_entries. }
  apply G. constructor.
Qed.

Lemma dict_of_pairs_nonempty {V : Type} (kv : pystr * V) (pairs : list (pystr * V)) :
  dict_of_pairs (kv :: pairs) <> [].
Proof.
  unfold dict_of_pairs. simpl.
  assert (G : forall acc : list (pystr * V),
             acc <> [] -> fold_left (fun d kv => dict_setitem d (fst kv) (snd kv)) pairs acc <> []).
  { induction pairs as [|kv' pairs IH]; intros acc Hacc; simpl; [assumption|].
    apply IH. apply dict_setitem_nonempty. }
  apply G. discriminate.
Qed.

Lemma marshal_u1_text (p : UbuntuOneMacaroons.t) :
  marshal_u1_credentials p
  = envelope_text (py "u1-macaroon") (json_dumps (PyDict (alias_items p))).
Proof.
  unfold marshal_u1_credentials, UbuntuOneModel.marshal, UbuntuOneModel.of_creds.
  simpl UbuntuOneModel.token_type. simpl UbuntuOneModel.value.
  apply json_dumps_envelope.
Qed.

Lemma json_loads_marshal_u1 (p : UbuntuOneMacaroons.t) :
  json_loads (marshal_u1_credentials p)
  = Return (PyDict [(py "t", PyStr (py "u1-macaroon"));
                    (py "v", PyDict (reread_entries [] (alias_items p)))]).
Proof.
  rewrite marshal_u1_text.
  rewrite json_loads_envelope
    with (v := PyDict (reread_entries [] (alias_items p)))
         (n := (List.length (alias_items p) + 2)%nat).
  - reflexivity.
  - intros rest. rewrite json_dumps_dict. reflexivity.
  - intros b rest Hb. apply scan_once_flat_dict; [| |assumption].
    + apply dict_of_pairs_nonempty.
    + apply dict_of_pairs_str_entries.
  - rewrite json_dumps_dict. cbn [List.length]. rewrite length_app. cbn [List.length].
    pose proof (entry_text_length (alias_items p)). lia.
Qed.

Lemma unmarshal_marshal_u1 (r d : pystr) :
  unmarshal_u1_credentials (marshal_u1_credentials (UbuntuOneMacaroons.make r d))
  = Return (UbuntuOneMacaroons.make (join_pairs r) (join_pairs d)).
Proof.
  unfold unmarshal_u1_credentials. rewrite json_loads_marshal_u1. reflexivity.
Qed.

(** *** The budget of the decoder *)

Lemma skip_whitespace_length (s : pystr) :
  (List.length (skip_whitespace s) <= List.length s)%nat.
Proof.
  induction s as [|c s IH]; [apply Nat.le_refl|].
  cbn [skip_whitespace]. destruct (is_whitespace c); cbn [List.length]; lia.
Qed.

Lemma strip_prefix_length (p s rest : pystr) :
  strip_prefix p s = Some rest ->
  List.length s = (List.length p + List.length rest)%nat.
Proof.
  revert s. induction p as [|x p IH]; intros s H.
  - cbn in H. now inversion H.
  - destruct s as [|y s]; cbn [strip_prefix] in H; [discriminate|].
    destruct (x =? y); [|discriminate]. apply IH in H. cbn [List.length]. lia.
Qed.

Lemma span_digits_length (s ds rest : pystr) :
  span_digits s = (ds, rest) ->
  List.length s = (List.length ds + List.length rest)%nat.
Proof.
  revert ds rest. induction s as [|c s IH]; intros ds rest H; cbn [span_digits] in H.
  - now inversion H.
  - destruct (is_digit c).
    + destruct (span_digits s) as [ds' rest'] eqn:E. inversion H; subst.
      specialize (IH _ _ eq_refl). cbn [List.length]. lia.
    + inversion H; subst. reflexivity.
Qed.

Lemma emit_some (c : codepoint) (r : option (pystr * pystr)) (v rest : pystr) :
  emit c r = Some (v, rest) -> exists v', r = Some (v', rest).
Proof. destruct r as [[v' rest']|]; cbn; intros H; inversion H; eauto. Qed.

Lemma scanstring_length (s v rest : pystr) :
  scanstring s = Some (v, rest) -> (List.length rest < List.length s)%nat.
Proof.
  remember (List.length s) as n eqn:Hn.
  assert (Hle : (List.length s <= n)%nat) by lia. rewrite Hn. clear Hn.
  revert s Hle v rest. induction n as [|n IH]; intros s Hle v rest H.
  { destruct s; [discriminate | cbn [List.length] in Hle; lia]. }
  destruct s as [|c r]; [discriminate|].
  cbn [scanstring] in H. cbn [List.length] in Hle.
  repeat first
    [ discriminate
    | match type of H with
      | context [match ?x with _ => _ end] => destruct x eqn:?
      end ];
    first
      [ inversion H; subst; cbn [List.length]; lia
      | apply emit_some in H as [v' H]; apply IH in H;
        cbn [List.length] in *; lia ].
Qed.

Lemma number_int_part_length (s ints rest : pystr) :
  number_int_part s = Some (ints, rest) -> (List.length rest < List.length s)%nat.
Proof.
  destruct s as [|c r]; cbn [number_int_part]; [discriminate|].
  destruct ((49 <=? c) && (c <=? 57)).
  - destruct (span_digits r) as [ds rest'] eqn:E. apply span_digits_length in E.
    intros H; inversion H; subst. cbn [List.length]. lia.
  - destruct (c =? 48); [|discriminate].
    intros H; inversion H; subst. cbn [List.length]. lia.
Qed.

Lemma number_frac_part_length (s rest : pystr) (frac : option pystr) :
  number_frac_part s = (frac, rest) -> (List.length rest <= List.length s)%nat.
Proof.
  destruct s as [|dot [|d r]]; cbn [number_frac_part];
    try (intros H; inversion H; subst; apply Nat.le_refl).
  destruct ((dot =? 46) && is_digit d).
  - cbn [tl]. destruct (span_digits (d :: r)) as [fs rest'] eqn:E.
    apply span_digits_length in E.
    intros H; inversion H; subst. cbn [List.length] in *. lia.
  - intros H; inversion H; subst. apply Nat.le_refl.
Qed.

Lemma number_exp_part_length (s rest : pystr) (expo : option Z) :
  number_exp_part s = (expo, rest) -> (List.length rest <= List.length s)%nat.
Proof.
  destruct s as [|e r]; cbn [number_exp_part];
    try (intros H; inversion H; subst; apply Nat.le_refl).
  destruct ((e =? 101) || (e =? 69));
    [|intros H; inversion H; subst; apply Nat.le_refl].
  cbv zeta.
  match goal with
  | |- context [span_digits ?x] =>
      assert (Hx : (List.length x <= List.length r)%nat)
        by (destruct r as [|c r']; [apply Nat.le_refl|];
            destruct ((c =? 45) || (c =? 43)); cbn [tl List.length]; lia);
      destruct (span_digits x) as [es rest'] eqn:E
  end.
  apply span_digits_length in E.
  destruct es; intros H; inversion H; subst; cbn [List.length] in *; lia.
Qed.

Lemma match_number_length (s rest : pystr) (v : pyobj) :
  match_number s = Some (v, rest) -> (List.length rest < List.length s)%nat.
Proof.
  unfold match_number. cbv zeta.
  match goal with
  | |- context [number_int_part ?x] =>
      assert (Hx : (List.length x <= List.length s)%nat)
        by (destruct s as [|c r]; [apply Nat.le_refl|];
            destruct (c =? 45); cbn [tl List.length]; lia);
      destruct (number_int_part x) as [[ints s2]|] eqn:E1; [|discriminate]
  end.
  apply number_int_part_length in E1.
  destruct (number_frac_part s2) as [frac s3] eqn:E2. apply number_frac_part_length in E2.
  destruct (number_exp_part s3) as [expo s4] eqn:E3. apply number_exp_part_length in E3.
  destruct frac, expo; intros H; inversion H; subst; lia.
Qed.

Lemma consumes_malformed (s : pystr) : consumes Malformed s.
Proof. split; [discriminate|]. intros v rest H; discriminate. Qed.

Lemma consumes_scanned (v : pyobj) (rest s : pystr) :
  (List.length rest < List.length s)%nat -> consumes (Scanned v rest) s.
Proof. intros H. split; [discriminate|]. intros v' rest' E; inversion E; subst; exact H. Qed.

Lemma consumes_weaken (x : scan) (s s' : pystr) :
  consumes x s' -> (List.length s' <= List.length s)%nat -> consumes x s.
Proof.
  intros [H1 H2] Hle. split; [exact H1|]. intros v rest E. specialize (H2 v rest E). lia.
Qed.

Lemma scan_once_eq (b : nat) (c : codepoint) (r : pystr) :
  scan_once (S b) (c :: r) =
  if c =? 34 then
    match scanstring r with
    | Some (v, rest) => Scanned (PyStr v) rest
    | None => Malformed
    end
  else if c =? 123 then
    match skip_whitespace r with
    | c' :: r' =>
        if c' =? 125 then Scanned (PyDict []) r' else parse_object b (c' :: r') []
    | [] => Malformed
    end
  else if c =? 91 then
    match skip_whitespace r with
    | c' :: r' =>
        if c' =? 93 then Scanned (PyList []) r' else parse_array b (c' :: r') []
    | [] => Malformed
    end
  else
    match strip_prefix (py "null") (c :: r), strip_prefix (py "true") (c :: r),
          strip_prefix (py "false") (c :: r) with
    | Some rest, _, _ => Scanned PyNone rest
    | _, Some rest, _ => Scanned (PyBool true) rest
    | _, _, Some rest => Scanned (PyBool false) rest
    | None, None, None =>
        match strip_prefix (py "NaN") (c :: r), strip_prefix (py "Infinity") (c :: r),
              strip_prefix (py "-Infinity") (c :: r) with
        | Some rest, _, _ => Scanned (PyFloat FNan) rest
        | _, Some rest, _ => Scanned (PyFloat (FInf false)) rest
        | _, _, Some rest => Scanned (PyFloat (FInf true)) rest
        | None, None, None =>
            match match_number (c :: r) with
            | Some (v, rest) => Scanned v rest
            | None => Malformed
            end
        end
    end.
Proof. reflexivity. Qed.

Lemma parse_array_eq (b : nat) (s : pystr) (acc : list pyobj) :
  parse_array (S b) s acc =
  match scan_once b s with
  | Scanned v r1 =>
      match skip_whitespace r1 with
      | [] => Malformed
      | d :: r2 =>
          if d =? 93 then Scanned (PyList (acc ++ [v])) r2
          else if d =? 44 then parse_array b (skip_whitespace r2) (acc ++ [v])
          else Malformed
      end
  | other => other
  end.
Proof. reflexivity. Qed.

Lemma consumes_prefix (p s : pystr) (v : pyobj) :
  p <> [] ->
  forall rest, strip_prefix p s = Some rest -> consumes (Scanned v rest) s.
Proof.
  intros Hp rest H. apply strip_prefix_length in H. apply consumes_scanned.
  destruct p; [congruence|]. cbn [List.length] in H. lia.
Qed.

Lemma scan_budget (b : nat) :
  (forall s, (2 * List.length s < b)%nat -> consumes (scan_once b s) s) /\
  (forall s acc, (2 * List.length s + 1 < b)%nat -> consumes (parse_object b s acc) s) /\
  (forall s acc, (2 * List.length s + 1 < b)%nat -> consumes (parse_array b s acc) s).
Proof.
  induction b as [|b (IHs & IHo & IHa)]; [repeat split; intros; lia|].
  assert (Hs : forall s, (2 * List.length s < S b)%nat -> consumes (scan_once (S b) s) s).
  { intros [|c r] Hb; [apply consumes_malformed|].
    cbn [List.length] in Hb. rewrite scan_once_eq.
    destruct (c =? 34).
    { destruct (scanstring r) as [[v rest]|] eqn:E; [|apply consumes_malformed].
      apply scanstring_length in E. apply consumes_scanned. cbn [List.length]. lia. }
    destruct (c =? 123).
    { pose proof (skip_whitespace_length r) as Hw.
      destruct (skip_whitespace r) as [|c' r']; [apply consumes_malformed|].
      cbn [List.length] in Hw.
      destruct (c' =? 125); [apply consumes_scanned; cbn [List.length]; lia|].
      apply consumes_weaken with (s' := c' :: r'); [|cbn [List.length]; lia].
      apply IHo. cbn [List.length]. lia. }
    destruct (c =? 91).
    { pose proof (skip_whitespace_length r) as Hw.
      destruct (skip_whitespace r) as [|c' r']; [apply consumes_malformed|].
      cbn [List.length] in Hw.
      destruct (c' =? 93); [apply consumes_scanned; cbn [List.length]; lia|].
      apply consumes_weaken with (s' := c' :: r'); [|cbn [List.length]; lia].
      apply IHa. cbn [List.length]. lia. }
    destruct (strip_prefix (py "null") (c :: r)) eqn:E1;
      [eapply consumes_prefix; [|exact E1]; discriminate|].
    destruct (strip_prefix (py "true") (c :: r)) eqn:E2;
      [eapply consumes_prefix; [|exact E2]; discriminate|].
    destruct (strip_prefix (py "false") (c :: r)) eqn:E3;
      [eapply consumes_prefix; [|exact E3]; discriminate|].
    destruct (strip_prefix (py "NaN") (c :: r)) eqn:E4;
      [eapply consumes_prefix; [|exact E4]; discriminate|].
    destruct (strip_prefix (py "Infinity") (c :: r)) eqn:E5;
      [eapply consumes_prefix; [|exact E5]; discriminate|].
    destruct (strip_prefix (py "-Infinity") (c :: r)) eqn:E6;
      [eapply consumes_prefix; [|exact E6]; discriminate|].
    destruct (match_number (c :: r)) as [[v rest]|] eqn:E7; [|apply consumes_malformed].
    apply match_number_length in E7. now apply consumes_scanned. }
  split; [exact Hs|]. split.
  - intros [|q r] acc Hb; [apply consumes_malformed|].
    cbn [List.length] in Hb. rewrite parse_object_eq.
    destruct (negb (q =? 34)); [apply consumes_malformed|].
    destruct (scanstring r) as [[key r1]|] eqn:E; [|apply consumes_malformed].
    apply scanstring_length in E.
    pose proof (skip_whitespace_length r1) as Hw1.
    destruct (skip_whitespace r1) as [|colon r2]; [apply consumes_malformed|].
    cbn [List.length] in Hw1.
    destruct (negb (colon =? 58)); [apply consumes_malformed|].
    pose proof (skip_whitespace_length r2) as Hw2.
    destruct (IHs (skip_whitespace r2) ltac:(lia)) as [Hne Hlen].
    destruct (scan_once b (skip_whitespace r2)) as [v r3| |] eqn:E3;
      [|apply consumes_malformed|congruence].
    specialize (Hlen v r3 eq_refl).
    pose proof (skip_whitespace_length r3) as Hw3.
    destruct (skip_whitespace r3) as [|d r4]; [apply consumes_malformed|].
    cbn [List.length] in Hw3.
    destruct (d =? 125); [apply consumes_scanned; cbn [List.length]; lia|].
    destruct (d =? 44); [|apply consumes_malformed].
    pose proof (skip_whitespace_length r4) as Hw4.
    apply consumes_weaken with (s' := skip_whitespace r4); [|cbn [List.length]; lia].
    apply IHo. lia.
  - intros s acc Hb. rewrite parse_array_eq.
    destruct (IHs s ltac:(lia)) as [Hne Hlen].
    destruct (scan_once b s) as [v r1| |] eqn:E1;
      [|apply consumes_malformed|congruence].
    specialize (Hlen v r1 eq_refl).
    pose proof (skip_whitespace_length r1) as Hw1.
    destruct (skip_whitespace r1) as [|d r2]; [apply consumes_malformed|].
    cbn [List.length] in Hw1.
    destruct (d =? 93); [apply consumes_scanned; lia|].
    destruct (d =? 44); [|apply consumes_malformed].
    pose proof (skip_whitespace_length r2) as Hw2.
    apply consumes_weaken with (s' := skip_whitespace r2); [|lia].
    apply IHa. lia.
Qed.

(** [json_loads] never exhausts the budget it gives to the decoder. *)
Lemma json_loads_budget (s : pystr) : json_loads s <> Raise RecursionError.
Proof.
  unfold json_loads.
  destruct (strip_prefix [65279] s); [discriminate|].
  pose proof (skip_whitespace_length s) as Hw.
  destruct (proj1 (scan_budget (S (2 * List.length s))) (skip_whitespace s) ltac:(lia))
    as [Hne _].
  destruct (scan_once (S (2 * List.length s)) (skip_whitespace s)) as [v rest| |];
    [destruct (skip_whitespace rest); discriminate|discriminate|congruence].
Qed.

(** * The claims of the specification *)

(** C1 (as stated, refuted): for the stored string [{"v": "abc123"}], which
    parses as a JSON object without a ["t"] key, [unmarshal_candid_credentials]
    does not return ["abc123"]. *)
Lemma untagged_dict_counterexample :
  unmarshal_candid_credentials (pyq "{'v': 'abc123'}") <> Return (py "abc123").
Proof. vm_compute. discriminate. Qed.

(** C1 (amended): for every stored string that parses as a JSON object with
    no ["t"] key, [unmarshal_candid_credentials] returns the stored string
    itself, whole, as the Candid credentials. *)
Theorem untagged_dict_returns_stored (s : pystr) (d : list (pystr * pyobj)) :
  json_loads s = Return (PyDict d) ->
  dict_contains (py "t") d = false ->
  unmarshal_candid_credentials s = Return s.
Proof.
  intros Hl Ht. unfold unmarshal_candid_credentials. rewrite Hl.
  cbn [py_in bind]. rewrite Ht. reflexivity.
Qed.

Lemma untagged_dict_returns_stored_witness :
  unmarshal_candid_credentials (pyq "{'v': 'abc123'}") = Return (pyq "{'v': 'abc123'}").
Proof.
  apply (untagged_dict_returns_stored (pyq "{'v': 'abc123'}") [(py "v", PyStr (py "abc123"))]).
  - vm_compute. reflexivity.
  - vm_compute. reflexivity.
Defined.

(** C2 (the code at the failing input): the copy that [with_discharge]
    makes of the pair [{root: "R", discharge: "D1"}] for the new discharge
    ["D2"] keeps root ["R"] and still has discharge ["D1"]; ["D2"] is stored
    under the attribute name ["d"]. *)
Theorem with_discharge_keeps_old_discharge :
  let p := UbuntuOneMacaroons.with_discharge (UbuntuOneMacaroons.make (py "R") (py "D1")) (py "D2") in
  UbuntuOneMacaroons.root p = py "R" /\
  UbuntuOneMacaroons.discharge p = py "D1" /\
  UbuntuOneMacaroons.extra p = [(py "d", py "D2")].
Proof. vm_compute. repeat split. Qed.

(** C3 (the code at the failing input): on the stored string [1], which is
    valid JSON but not an object, both [unmarshal_candid_credentials] and
    [unmarshal_u1_credentials] raise [TypeError], not
    [CredentialsNotParseable]. *)
Theorem unmarshal_json_number_raises_TypeError :
  unmarshal_candid_credentials (py "1") = Raise TypeError /\
  unmarshal_u1_credentials (py "1") = Raise TypeError.
Proof. vm_compute. split; reflexivity. Qed.

(** C4 (as stated, refuted): the string made of the two code points U+D800
    and U+DC00 does not survive [marshal_candid_credentials] followed by
    [unmarshal_candid_credentials]. *)
Lemma candid_round_trip_counterexample :
  unmarshal_candid_credentials (marshal_candid_credentials [55296; 56320])
  <> Return [55296; 56320].
Proof. vm_compute. discriminate. Qed.

(** C4 (amended): for every Candid credential string [v] in which no high
    surrogate is immediately followed by a low surrogate,
    [unmarshal_candid_credentials (marshal_candid_credentials v)] returns
    [v]. *)
Theorem candid_round_trip (v : pystr) :
  valid_str v -> has_surrogate_pair v = false ->
  unmarshal_candid_credentials (marshal_candid_credentials v) = Return v.
Proof.
  intros Hv Hp. rewrite unmarshal_marshal_candid. now rewrite join_pairs_id.
Qed.

Lemma candid_round_trip_witness :
  unmarshal_candid_credentials (marshal_candid_credentials (py "abc123"))
  = Return (py "abc123").
Proof.
  apply (candid_round_trip (py "abc123")).
  - repeat constructor.
  - reflexivity.
Defined.

(** C5 (as stated, refuted): the pair whose root is the two code points
    U+D800 and U+DC00 does not survive [marshal_u1_credentials] followed by
    [unmarshal_u1_credentials]. *)
Lemma u1_round_trip_counterexample :
  unmarshal_u1_credentials
    (marshal_u1_credentials (UbuntuOneMacaroons.make [55296; 56320] (py "d")))
  <> Return (UbuntuOneMacaroons.make [55296; 56320] (py "d")).
Proof. vm_compute. discriminate. Qed.

(** C5 (amended): for every pair [p] built by the constructor (no attribute
    besides [root] and [discharge]) whose two strings have no high surrogate
    immediately followed by a low surrogate,
    [unmarshal_u1_credentials (marshal_u1_credentials p)] returns [p]. *)
Theorem u1_round_trip (p : UbuntuOneMacaroons.t) :
  UbuntuOneMacaroons.extra p = [] ->
  valid_str (UbuntuOneMacaroons.root p) ->
  valid_str (UbuntuOneMacaroons.discharge p) ->
  has_surrogate_pair (UbuntuOneMacaroons.root p) = false ->
  has_surrogate_pair (UbuntuOneMacaroons.discharge p) = false ->
  unmarshal_u1_credentials (marshal_u1_credentials p) = Return p.
Proof.
  destruct p as [r d e]. cbn [UbuntuOneMacaroons.extra UbuntuOneMacaroons.root
                              UbuntuOneMacaroons.discharge].
  intros -> Hr Hd Pr Pd.
  change {| UbuntuOneMacaroons.root := r; UbuntuOneMacaroons.discharge := d;
            UbuntuOneMacaroons.extra := [] |} with (UbuntuOneMacaroons.make r d).
  rewrite unmarshal_marshal_u1. now rewrite !join_pairs_id.
Qed.

Lemma u1_round_trip_witness :
  unmarshal_u1_credentials (marshal_u1_credentials (UbuntuOneMacaroons.make (py "r") (py "d")))
  = Return (UbuntuOneMacaroons.make (py "r") (py "d")).
Proof.
  apply (u1_round_trip (UbuntuOneMacaroons.make (py "r") (py "d"))).
  - reflexivity.
  - repeat constructor.
  - repeat constructor.
  - reflexivity.
  - reflexivity.
Defined.

(** C6: for every [UbuntuOneMacaroons] instance, what
    [marshal_u1_credentials] produces is refused by
    [unmarshal_candid_credentials] with [CredentialsNotParseable], the
    message saying that Candid credentials were expected. *)
Theorem cross_type_u1_into_candid (p : UbuntuOneMacaroons.t) :
  unmarshal_candid_credentials (marshal_u1_credentials p)
  = Raise (CredentialsNotParseable "Expected valid Candid credentials").
Proof.
  unfold unmarshal_candid_credentials. rewrite json_loads_marshal_u1. reflexivity.
Qed.

(** C7: for every stored string that [json.loads] rejects,
    [unmarshal_u1_credentials] raises [CredentialsNotParseable]. *)
Theorem u1_not_json (s : pystr) :
  json_loads s = Raise JSONDecodeError ->
  unmarshal_u1_credentials s
  = Raise (CredentialsNotParseable "Expected valid Ubuntu One credentials").
Proof. intros H. unfold unmarshal_u1_credentials. now rewrite H. Qed.

Lemma u1_not_json_witness :
  unmarshal_u1_credentials (py "not json")
  = Raise (CredentialsNotParseable "Expected valid Ubuntu One credentials").
Proof. apply (u1_not_json (py "not json")). vm_compute. reflexivity. Defined.

(** C8: for every stored string that [json.loads] rejects,
    [unmarshal_candid_credentials] returns the stored string itself. *)
Theorem candid_not_json (s : pystr) :
  json_loads s = Raise JSONDecodeError ->
  unmarshal_candid_credentials s = Return s.
Proof. intros H. unfold unmarshal_candid_credentials. rewrite H. reflexivity. Qed.

Lemma candid_not_json_witness :
  unmarshal_candid_credentials (py "abc123") = Return (py "abc123").
Proof. apply (candid_not_json (py "abc123")). vm_compute. reflexivity. Defined.

(** C9: [marshal_candid_credentials "m"] is the text
    [{"t": "macaroon", "v": "m"}], which decodes to the object with ["t"]
    first and ["v"] second, and [unmarshal_candid_credentials] of it
    returns ["m"]. *)
Theorem candid_tagged_m :
  marshal_candid_credentials (py "m") = pyq "{'t': 'macaroon', 'v': 'm'}" /\
  json_loads (marshal_candid_credentials (py "m"))
  = Return (PyDict [(py "t", PyStr (py "macaroon")); (py "v", PyStr (py "m"))]) /\
  unmarshal_candid_credentials (marshal_candid_credentials (py "m")) = Return (py "m").
Proof. vm_compute. repeat split. Qed.

(** C10: for every Candid credential string, what
    [marshal_candid_credentials] produces is refused by
    [unmarshal_u1_credentials] with [CredentialsNotParseable]. *)
Theorem cross_type_candid_into_u1 (v : pystr) :
  unmarshal_u1_credentials (marshal_candid_credentials v)
  = Raise (CredentialsNotParseable "Expected valid Ubuntu One credentials").
Proof.
  unfold unmarshal_u1_credentials. rewrite json_loads_marshal_candid. reflexivity.
Qed.
(** * Further properties of the codecs *)

Lemma dict_get_contains {V : Type} (k : pystr) (d : list (pystr * V)) (v : V) :
  dict_get k d = Some v -> dict_contains k d = true.
Proof. intros H. unfold dict_contains. now rewrite H. Qed.

Lemma unmarshal_candid_tagged (s : pystr) (d : list (pystr * pyobj)) :
  json_loads s = Return (PyDict d) ->
  dict_contains (py "t") d = true ->
  unmarshal_candid_credentials s =
  match CandidModel.unmarshal (PyDict d) with
  | Return m => Return (CandidModel.value m)
  | Raise ValidationError =>
      Raise (CredentialsNotParseable "Expected valid Candid credentials")
  | Raise e => Raise e
  end.
Proof.
  intros Hl Ht. unfold unmarshal_candid_credentials. rewrite Hl.
  cbn [py_in bind]. rewrite Ht. reflexivity.
Qed.

Lemma candid_init_fields (d : list (pystr * pyobj)) :
  dict_contains (py "__pydantic_self__") d = false ->
  CandidModel.unmarshal (PyDict d) =
  match optional_field (py "t") (py "macaroon") (literal_validator (py "macaroon")) d,
        required_field (py "v") str_validator d with
  | Some ty, Some v => Return {| CandidModel.token_type := ty; CandidModel.value := v |}
  | _, _ => Raise ValidationError
  end.
Proof.
  intros H. unfold CandidModel.unmarshal, CandidModel.init, kwargs. rewrite H. reflexivity.
Qed.

Lemma literal_validator_other (expected : pystr) (tag : pyobj) :
  tag <> PyStr expected -> literal_validator expected tag = None.
Proof.
  intros Hne. destruct tag as [| | | |x| |]; try reflexivity. cbn [literal_validator].
  destruct (pystr_eqb x expected) eqn:Ex; [|reflexivity].
  apply pystr_eqb_eq in Ex. congruence.
Qed.

(** X1: case (1) of [unmarshal_candid_credentials].  A stored JSON object
    whose ["t"] is ["macaroon"] and whose ["v"] is a string gives that
    string, whatever other keys the object has (the key
    [__pydantic_self__] apart, which the constructor cannot take). *)
Theorem candid_tagged_returns_value (s v : pystr) (d : list (pystr * pyobj)) :
  json_loads s = Return (PyDict d) ->
  dict_get (py "t") d = Some (PyStr (py "macaroon")) ->
  dict_get (py "v") d = Some (PyStr v) ->
  dict_contains (py "__pydantic_self__") d = false ->
  unmarshal_candid_credentials s = Return v.
Proof.
  intros Hl Ht Hv Hp.
  rewrite (unmarshal_candid_tagged s d Hl (dict_get_contains _ _ _ Ht)).
  rewrite (candid_init_fields d Hp).
  unfold optional_field, required_field. rewrite Ht, Hv. reflexivity.
Qed.

Lemma candid_tagged_returns_value_witness :
  unmarshal_candid_credentials (pyq "{'extra': [1, 2], 'v': 'm', 't': 'macaroon'}")
  = Return (py "m").
Proof.
  apply (candid_tagged_returns_value _ _
           [(py "extra", PyList [PyInt 1; PyInt 2]); (py "v", PyStr (py "m"));
            (py "t", PyStr (py "macaroon"))]);
    vm_compute; reflexivity.
Defined.

(** X2: case (4) of [unmarshal_candid_credentials].  A stored JSON object
    that has a ["t"] key whose value is anything but the string
    ["macaroon"] is refused with [CredentialsNotParseable]. *)
Theorem candid_other_tag_refused (s : pystr) (d : list (pystr * pyobj)) (tag : pyobj) :
  json_loads s = Return (PyDict d) ->
  dict_get (py "t") d = Some tag ->
  tag <> PyStr (py "macaroon") ->
  dict_contains (py "__pydantic_self__") d = false ->
  unmarshal_candid_credentials s
  = Raise (CredentialsNotParseable "Expected valid Candid credentials").
Proof.
  intros Hl Ht Hne Hp.
  rewrite (unmarshal_candid_tagged s d Hl (dict_get_contains _ _ _ Ht)).
  rewrite (candid_init_fields d Hp).
  unfold optional_field. rewrite Ht, (literal_validator_other _ _ Hne). reflexivity.
Qed.

Lemma candid_other_tag_refused_witness :
  unmarshal_candid_credentials (pyq "{'t': 'bearer', 'v': 'm'}")
  = Raise (CredentialsNotParseable "Expected valid Candid credentials").
Proof.
  apply (candid_other_tag_refused _
           [(py "t", PyStr (py "bearer")); (py "v", PyStr (py "m"))] (PyStr (py "bearer")));
    [vm_compute; reflexivity | vm_compute; reflexivity | discriminate | vm_compute; reflexivity].
Defined.

(** X3: a stored JSON object that has a ["t"] key but no ["v"] key is
    refused by [unmarshal_candid_credentials] with
    [CredentialsNotParseable]. *)
Theorem candid_tagged_without_value_refused (s : pystr) (d : list (pystr * pyobj)) :
  json_loads s = Return (PyDict d) ->
  dict_contains (py "t") d = true ->
  dict_get (py "v") d = None ->
  dict_contains (py "__pydantic_self__") d = false ->
  unmarshal_candid_credentials s
  = Raise (CredentialsNotParseable "Expected valid Candid credentials").
Proof.
  intros Hl Ht Hv Hp.
  rewrite (unmarshal_candid_tagged s d Hl Ht), (candid_init_fields d Hp).
  unfold required_field. rewrite Hv.
  destruct (optional_field (py "t") (py "macaroon") (literal_validator (py "macaroon")) d);
    reflexivity.
Qed.

Lemma candid_tagged_without_value_refused_witness :
  unmarshal_candid_credentials (pyq "{'t': 'macaroon'}")
  = Raise (CredentialsNotParseable "Expected valid Candid credentials").
Proof.
  apply (candid_tagged_without_value_refused _ [(py "t", PyStr (py "macaroon"))]);
    vm_compute; reflexivity.
Defined.

(** X4: whenever the stored string is JSON and the test ["t" in creds] is
    false (an object without that key, a list without that item, a string
    without that letter), [unmarshal_candid_credentials] returns the stored
    string whole. *)
Theorem candid_untagged_returns_stored (s : pystr) (creds : pyobj) :
  json_loads s = Return creds ->
  py_in (py "t") creds = Return false ->
  unmarshal_candid_credentials s = Return s.
Proof.
  intros Hl Ht. unfold unmarshal_candid_credentials. rewrite Hl.
  cbn [bind]. rewrite Ht. reflexivity.
Qed.

Lemma candid_untagged_returns_stored_witness :
  unmarshal_candid_credentials (pyq "['a', 'b']") = Return (pyq "['a', 'b']").
Proof.
  apply (candid_untagged_returns_stored _ (PyList [PyStr (py "a"); PyStr (py "b")]));
    vm_compute; reflexivity.
Defined.

Lemma unmarshal_u1_tagged (s : pystr) (d : list (pystr * pyobj)) :
  json_loads s = Return (PyDict d) ->
  dict_contains (py "t") d = true ->
  unmarshal_u1_credentials s =
  match UbuntuOneModel.unmarshal (PyDict d) with
  | Return m => Return (UbuntuOneModel.value m)
  | Raise ValidationError =>
      Raise (CredentialsNotParseable "Expected valid Ubuntu One credentials")
  | Raise e => Raise e
  end.
Proof.
  intros Hl Ht. unfold unmarshal_u1_credentials. rewrite Hl.
  cbn [py_in bind]. rewrite Ht. reflexivity.
Qed.

Lemma unmarshal_u1_untagged (s : pystr) (creds : pyobj) :
  json_loads s = Return creds ->
  py_in (py "t") creds = Return false ->
  unmarshal_u1_credentials s =
  match UbuntuOneMacaroons.validate creds with
  | Some p => Return p
  | None => Raise (CredentialsNotParseable "Expected valid Ubuntu One credentials")
  end.
Proof.
  intros Hl Ht. unfold unmarshal_u1_credentials. rewrite Hl.
  cbn [bind]. rewrite Ht. cbn [bind].
  change (UbuntuOneModel.unmarshal (PyDict (dict_setitem [] (py "v") creds)))
    with (match UbuntuOneMacaroons.validate creds with
          | Some v => Return {| UbuntuOneModel.token_type := py "u1-macaroon";
                                UbuntuOneModel.value := v |}
          | None => Raise ValidationError
          end).
  destruct (UbuntuOneMacaroons.validate creds); reflexivity.
Qed.

Lemma u1_init_fields (d : list (pystr * pyobj)) :
  dict_contains (py "__pydantic_self__") d = false ->
  UbuntuOneModel.unmarshal (PyDict d) =
  match optional_field (py "t") (py "u1-macaroon") (literal_validator (py "u1-macaroon")) d,
        required_field (py "v") UbuntuOneMacaroons.validate d with
  | Some ty, Some v => Return {| UbuntuOneModel.token_type := ty; UbuntuOneModel.value := v |}
  | _, _ => Raise ValidationError
  end.
Proof.
  intros H. unfold UbuntuOneModel.unmarshal, UbuntuOneModel.init, kwargs. rewrite H.
  reflexivity.
Qed.

Lemma macaroons_init_strings (d : list (pystr * pyobj)) (r dis : pystr) :
  dict_contains (py "__pydantic_self__") d = false ->
  dict_get (py "r") d = Some (PyStr r) ->
  dict_get (py "d") d = Some (PyStr dis) ->
  UbuntuOneMacaroons.init d = Some (UbuntuOneMacaroons.make r dis).
Proof.
  intros Hp Hr Hd. unfold UbuntuOneMacaroons.init, required_field.
  rewrite Hp, Hr, Hd. reflexivity.
Qed.

(** X5: case (2) of [unmarshal_u1_credentials].  A stored JSON object with
    no ["t"] key whose ["r"] and ["d"] are strings gives the pair with that
    root and that discharge, whatever other keys it has. *)
Theorem u1_untagged_dict_returns_pair (s r dis : pystr) (d : list (pystr * pyobj)) :
  json_loads s = Return (PyDict d) ->
  dict_contains (py "t") d = false ->
  dict_get (py "r") d = Some (PyStr r) ->
  dict_get (py "d") d = Some (PyStr dis) ->
  dict_contains (py "__pydantic_self__") d = false ->
  unmarshal_u1_credentials s = Return (UbuntuOneMacaroons.make r dis).
Proof.
  intros Hl Ht Hr Hd Hp.
  rewrite (unmarshal_u1_untagged s (PyDict d) Hl) by (cbn [py_in]; now rewrite Ht).
  cbn [UbuntuOneMacaroons.validate].
  now rewrite (macaroons_init_strings d r dis Hp Hr Hd).
Qed.

Lemma u1_untagged_dict_returns_pair_witness :
  unmarshal_u1_credentials (pyq "{'d': 'D', 'r': 'R', 'x': null}")
  = Return (UbuntuOneMacaroons.make (py "R") (py "D")).
Proof.
  apply (u1_untagged_dict_returns_pair _ _ _
           [(py "d", PyStr (py "D")); (py "r", PyStr (py "R")); (py "x", PyNone)]);
    vm_compute; reflexivity.
Defined.

(** X6: case (1) of [unmarshal_u1_credentials].  A stored JSON object whose
    ["t"] is ["u1-macaroon"] and whose ["v"] is an object with string ["r"]
    and ["d"] gives the pair with that root and that discharge. *)
Theorem u1_tagged_returns_pair (s r dis : pystr) (d inner : list (pystr * pyobj)) :
  json_loads s = Return (PyDict d) ->
  dict_get (py "t") d = Some (PyStr (py "u1-macaroon")) ->
  dict_get (py "v") d = Some (PyDict inner) ->
  dict_contains (py "__pydantic_self__") d = false ->
  dict_get (py "r") inner = Some (PyStr r) ->
  dict_get (py "d") inner = Some (PyStr dis) ->
  dict_contains (py "__pydantic_self__") inner = false ->
  unmarshal_u1_credentials s = Return (UbuntuOneMacaroons.make r dis).
Proof.
  intros Hl Ht Hv Hp Hr Hd Hp'.
  rewrite (unmarshal_u1_tagged s d Hl (dict_get_contains _ _ _ Ht)).
  rewrite (u1_init_fields d Hp).
  unfold optional_field, required_field. rewrite Ht, Hv.
  cbn [UbuntuOneMacaroons.validate].
  rewrite (macaroons_init_strings inner r dis Hp' Hr Hd). reflexivity.
Qed.

Lemma u1_tagged_returns_pair_witness :
  unmarshal_u1_credentials (pyq "{'v': {'r': 'R', 'd': 'D'}, 't': 'u1-macaroon'}")
  = Return (UbuntuOneMacaroons.make (py "R") (py "D")).
Proof.
  apply (u1_tagged_returns_pair _ _ _
           [(py "v", PyDict [(py "r", PyStr (py "R")); (py "d", PyStr (py "D"))]);
            (py "t", PyStr (py "u1-macaroon"))]
           [(py "r", PyStr (py "R")); (py "d", PyStr (py "D"))]);
    vm_compute; reflexivity.
Defined.

(** X7: case (4) of [unmarshal_u1_credentials].  A stored JSON object that
    has a ["t"] key whose value is anything but the string ["u1-macaroon"]
    is refused with [CredentialsNotParseable]. *)
Theorem u1_other_tag_refused (s : pystr) (d : list (pystr * pyobj)) (tag : pyobj) :
  json_loads s = Return (PyDict d) ->
  dict_get (py "t") d = Some tag ->
  tag <> PyStr (py "u1-macaroon") ->
  dict_contains (py "__pydantic_self__") d = false ->
  unmarshal_u1_credentials s
  = Raise (CredentialsNotParseable "Expected valid Ubuntu One credentials").
Proof.
  intros Hl Ht Hne Hp.
  rewrite (unmarshal_u1_tagged s d Hl (dict_get_contains _ _ _ Ht)).
  rewrite (u1_init_fields d Hp).
  unfold optional_field. rewrite Ht, (literal_validator_other _ _ Hne). reflexivity.
Qed.

Lemma u1_other_tag_refused_witness :
  unmarshal_u1_credentials (pyq "{'t': 'U1-macaroon', 'v': {'r': 'R', 'd': 'D'}}")
  = Raise (CredentialsNotParseable "Expected valid Ubuntu One credentials").
Proof.
  apply (u1_other_tag_refused _
           [(py "t", PyStr (py "U1-macaroon"));
            (py "v", PyDict [(py "r", PyStr (py "R")); (py "d", PyStr (py "D"))])]
           (PyStr (py "U1-macaroon")));
    [vm_compute; reflexivity | vm_compute; reflexivity | discriminate | vm_compute; reflexivity].
Defined.

(** X8: a stored JSON object with no ["t"] key that lacks ["r"] or lacks
    ["d"] is refused by [unmarshal_u1_credentials] with
    [CredentialsNotParseable]: no pair with a missing half is returned. *)
Theorem u1_untagged_missing_field_refused (s : pystr) (d : list (pystr * pyobj)) :
  json_loads s = Return (PyDict d) ->
  dict_contains (py "t") d = false ->
  dict_get (py "r") d = None \/ dict_get (py "d") d = None ->
  unmarshal_u1_credentials s
  = Raise (CredentialsNotParseable "Expected valid Ubuntu One credentials").
Proof.
  intros Hl Ht Hm.
  rewrite (unmarshal_u1_untagged s (PyDict d) Hl) by (cbn [py_in]; now rewrite Ht).
  cbn [UbuntuOneMacaroons.validate]. unfold UbuntuOneMacaroons.init, required_field.
  destruct (dict_contains (py "__pydantic_self__") d); [reflexivity|].
  destruct Hm as [Hm|Hm]; rewrite Hm.
  - reflexivity.
  - destruct (dict_get (py "r") d) as [x|]; [destruct (str_validator x)|]; reflexivity.
Qed.

Lemma u1_untagged_missing_field_refused_witness :
  unmarshal_u1_credentials (pyq "{'r': 'R'}")
  = Raise (CredentialsNotParseable "Expected valid Ubuntu One credentials").
Proof.
  apply (u1_untagged_missing_field_refused _ [(py "r", PyStr (py "R"))]);
    [vm_compute; reflexivity | vm_compute; reflexivity | right; vm_compute; reflexivity].
Defined.

Lemma json_loads_raise (s : pystr) (e : exn) :
  json_loads s = Raise e -> e = JSONDecodeError.
Proof.
  intros H. destruct e; try reflexivity; exfalso.
  - revert H. unfold json_loads.
    destruct (strip_prefix [65279] s); [discriminate|].
    destruct (scan_once (S (2 * List.length s)) (skip_whitespace s)) as [v rest| |];
      [destruct (skip_whitespace rest); discriminate|discriminate|discriminate].
  - revert H. unfold json_loads.
    destruct (strip_prefix [65279] s); [discriminate|].
    destruct (scan_once (S (2 * List.length s)) (skip_whitespace s)) as [v rest| |];
      [destruct (skip_whitespace rest); discriminate|discriminate|discriminate].
  - exact (json_loads_budget s H).
  - revert H. unfold json_loads.
    destruct (strip_prefix [65279] s); [discriminate|].
    destruct (scan_once (S (2 * List.length s)) (skip_whitespace s)) as [v rest| |];
      [destruct (skip_whitespace rest); discriminate|discriminate|discriminate].
Qed.

Lemma py_in_raise (needle : pystr) (o : pyobj) (e : exn) :
  py_in needle o = Raise e -> e = TypeError.
Proof. destruct o; simpl; intros H; inversion H; reflexivity. Qed.

Lemma kwargs_raise (data : pyobj) (e : exn) :
  kwargs data = Raise e -> e = TypeError.
Proof.
  destruct data as [| | | | | |d]; cbn [kwargs]; try (intros H; inversion H; reflexivity).
  destruct (dict_contains (py "__pydantic_self__") d); intros H; inversion H; reflexivity.
Qed.

Lemma candid_init_raise (data : pyobj) (e : exn) :
  CandidModel.unmarshal data = Raise e -> e = ValidationError \/ e = TypeError.
Proof.
  unfold CandidModel.unmarshal, CandidModel.init.
  destruct (kwargs data) as [d|e'] eqn:K; cbn [bind].
  - destruct (optional_field _ _ _ d); [destruct (required_field _ _ d)|];
      intros H; inversion H; now left.
  - intros H; inversion H; subst. right. exact (kwargs_raise _ _ K).
Qed.

Lemma u1_init_raise (data : pyobj) (e : exn) :
  UbuntuOneModel.unmarshal data = Raise e -> e = ValidationError \/ e = TypeError.
Proof.
  unfold UbuntuOneModel.unmarshal, UbuntuOneModel.init.
  destruct (kwargs data) as [d|e'] eqn:K; cbn [bind].
  - destruct (optional_field _ _ _ d); [destruct (required_field _ _ d)|];
      intros H; inversion H; now left.
  - intros H; inversion H; subst. right. exact (kwargs_raise _ _ K).
Qed.

Lemma candid_finish_raise (data : pyobj) (e : exn) :
  match CandidModel.unmarshal data with
  | Return m => Return (CandidModel.value m)
  | Raise ValidationError =>
      Raise (CredentialsNotParseable "Expected valid Candid credentials")
  | Raise e => Raise e
  end = Raise e ->
  e = CredentialsNotParseable "Expected valid Candid credentials" \/ e = TypeError.
Proof.
  destruct (CandidModel.unmarshal data) as [m|e'] eqn:U; [discriminate|].
  destruct (candid_init_raise _ _ U) as [-> | ->]; intros H; inversion H; auto.
Qed.

Lemma u1_finish_raise (data : pyobj) (e : exn) :
  match UbuntuOneModel.unmarshal data with
  | Return m => Return (UbuntuOneModel.value m)
  | Raise ValidationError =>
      Raise (CredentialsNotParseable "Expected valid Ubuntu One credentials")
  | Raise e => Raise e
  end = Raise e ->
  e = CredentialsNotParseable "Expected valid Ubuntu One credentials" \/ e = TypeError.
Proof.
  destruct (UbuntuOneModel.unmarshal data) as [m|e'] eqn:U; [discriminate|].
  destruct (u1_init_raise _ _ U) as [-> | ->]; intros H; inversion H; auto.
Qed.





(** X11: a stored text that is a JSON [null], boolean or number makes both
    [unmarshal_candid_credentials] and [unmarshal_u1_credentials] raise
    [TypeError], from the membership test on the decoded value. *)
Theorem unmarshal_json_scalar_raises_TypeError (s : pystr) (o : pyobj) :
  json_loads s = Return o ->
  json_scalar o = true ->
  unmarshal_candid_credentials s = Raise TypeError
  /\ unmarshal_u1_credentials s = Raise TypeError.
Proof.
  intros L Hs. unfold unmarshal_candid_credentials, unmarshal_u1_credentials.
  rewrite L. destruct o; try discriminate Hs; split; reflexivity.
Qed.

Lemma unmarshal_json_scalar_raises_TypeError_witness :
  unmarshal_candid_credentials (py " -7 ") = Raise TypeError
  /\ unmarshal_u1_credentials (py " -7 ") = Raise TypeError.
Proof.
  apply (unmarshal_json_scalar_raises_TypeError _ (PyInt (-7)));
    vm_compute; reflexivity.
Defined.

(** X12: a stored text that decodes to a JSON string containing the letter
    [t], or to a JSON array with the item ["t"], passes the membership test
    and is then handed to the model as keyword arguments: both functions
    raise [TypeError]. *)
Theorem unmarshal_tagged_non_object_raises_TypeError (s : pystr) (o : pyobj) :
  json_loads s = Return o ->
  py_in (py "t") o = Return true ->
  (forall d, o <> PyDict d) ->
  unmarshal_candid_credentials s = Raise TypeError
  /\ unmarshal_u1_credentials s = Raise TypeError.
Proof.
  intros L P Hd. unfold unmarshal_candid_credentials, unmarshal_u1_credentials.
  rewrite L. cbn [bind]. rewrite P. cbn [bind].
  destruct o as [| | | | | |d]; try (split; reflexivity).
  now destruct (Hd d).
Qed.

Lemma unmarshal_tagged_non_object_raises_TypeError_witness :
  unmarshal_candid_credentials (pyq "'secret'") = Raise TypeError
  /\ unmarshal_u1_credentials (pyq "'secret'") = Raise TypeError.
Proof.
  apply (unmarshal_tagged_non_object_raises_TypeError _ (PyStr (py "secret")));
    [vm_compute; reflexivity | vm_compute; reflexivity | discriminate].
Defined.

(** X13: every value [unmarshal_u1_credentials] returns is a plain pair: it
    carries a root and a discharge and no other attribute. *)
Theorem unmarshal_u1_returns_plain_pair (s : pystr) (p : UbuntuOneMacaroons.t) :
  unmarshal_u1_credentials s = Return p ->
  UbuntuOneMacaroons.extra p = [].
Proof.
  assert (Hi : forall d q, UbuntuOneMacaroons.init d = Some q ->
                           UbuntuOneMacaroons.extra q = []).
  { intros d q. unfold UbuntuOneMacaroons.init.
    destruct (dict_contains _ d); [discriminate|].
    destruct (required_field (py "r") _ d); [|discriminate].
    destruct (required_field (py "d") _ d); [|discriminate].
    intros H; inversion H; reflexivity. }
  assert (Hv : forall o q, UbuntuOneMacaroons.validate o = Some q ->
                           UbuntuOneMacaroons.extra q = []).
  { intros o q. destruct o as [| | | | |l|d]; cbn [UbuntuOneMacaroons.validate];
      try discriminate.
    - destruct (UbuntuOneMacaroons.dict_of_sequence l []); [apply Hi|discriminate].
    - apply Hi. }
  assert (Hf : forall data,
             match UbuntuOneModel.unmarshal data with
             | Return m => Return (UbuntuOneModel.value m)
             | Raise ValidationError =>
                 Raise (CredentialsNotParseable "Expected valid Ubuntu One credentials")
             | Raise e => Raise e
             end = Return p -> UbuntuOneMacaroons.extra p = []).
  { intros data. unfold UbuntuOneModel.unmarshal, UbuntuOneModel.init.
    destruct (kwargs data) as [d|e]; cbn [bind]; [|destruct e; discriminate].
    destruct (optional_field _ _ _ d); [|discriminate].
    unfold required_field. destruct (dict_get (py "v") d) as [o|]; [|discriminate].
    destruct (UbuntuOneMacaroons.validate o) as [q|] eqn:V; [|discriminate].
    intros H; inversion H; subst. exact (Hv _ _ V). }
  unfold unmarshal_u1_credentials.
  destruct (json_loads s) as [creds|e0]; [|destruct e0; discriminate].
  cbn [bind]. destruct (py_in (py "t") creds) as [b|e1]; cbn [bind]; [|discriminate].
  destruct b; cbn [bind]; apply Hf.
Qed.

Lemma unmarshal_u1_returns_plain_pair_witness :
  UbuntuOneMacaroons.extra (UbuntuOneMacaroons.make (py "R") (py "D")) = [].
Proof.
  apply (unmarshal_u1_returns_plain_pair (pyq "{'r': 'R', 'd': 'D', 'e': 'E'}"));
    vm_compute; reflexivity.
Defined.

Lemma with_discharge_eq (p : UbuntuOneMacaroons.t) (d : pystr) :
  UbuntuOneMacaroons.with_discharge p d
  = {| UbuntuOneMacaroons.root := UbuntuOneMacaroons.root p;
       UbuntuOneMacaroons.discharge := UbuntuOneMacaroons.discharge p;
       UbuntuOneMacaroons.extra :=
         dict_setitem (UbuntuOneMacaroons.extra p) (py "d") d |}.
Proof. reflexivity. Qed.

Lemma dict_setitem_twice {V : Type} (e : list (pystr * V)) (k : pystr) (a b : V) :
  dict_setitem (dict_setitem e k a) k b = dict_setitem e k b.
Proof.
  induction e as [|[k' v'] e IH]; cbn [dict_setitem].
  - now rewrite pystr_eqb_refl.
  - destruct (pystr_eqb k k') eqn:E; cbn [dict_setitem]; rewrite E; [reflexivity|].
    now rewrite IH.
Qed.

Lemma marshal_with_discharge (r d1 d2 : pystr) :
  marshal_u1_credentials
    (UbuntuOneMacaroons.with_discharge (UbuntuOneMacaroons.make r d1) d2)
  = marshal_u1_credentials (UbuntuOneMacaroons.make r d2).
Proof. reflexivity. Qed.

(** X14: [with_discharge] leaves the fields [root] and [discharge] of every
    instance as they were; the new discharge is kept as an attribute [d]
    beside them. *)
Theorem with_discharge_keeps_fields (p : UbuntuOneMacaroons.t) (d : pystr) :
  UbuntuOneMacaroons.root (UbuntuOneMacaroons.with_discharge p d)
  = UbuntuOneMacaroons.root p
  /\ UbuntuOneMacaroons.discharge (UbuntuOneMacaroons.with_discharge p d)
     = UbuntuOneMacaroons.discharge p
  /\ dict_get (py "d") (UbuntuOneMacaroons.extra (UbuntuOneMacaroons.with_discharge p d))
     = Some d.
Proof.
  rewrite with_discharge_eq.
  cbn [UbuntuOneMacaroons.root UbuntuOneMacaroons.discharge UbuntuOneMacaroons.extra].
  repeat split.
  induction (UbuntuOneMacaroons.extra p) as [|[k' v'] e IH]; cbn [dict_setitem dict_get].
  - now rewrite pystr_eqb_refl.
  - destruct (pystr_eqb (py "d") k') eqn:E; cbn [dict_get]; rewrite E; [reflexivity|exact IH].
Qed.

(** X15: the text [marshal_u1_credentials] writes for a pair after
    [with_discharge] is the text of a fresh pair with the same root and the
    new discharge: in the stored form the old discharge is gone. *)
Theorem marshal_after_with_discharge (r d1 d2 : pystr) :
  marshal_u1_credentials
    (UbuntuOneMacaroons.with_discharge (UbuntuOneMacaroons.make r d1) d2)
  = marshal_u1_credentials (UbuntuOneMacaroons.make r d2).
Proof. exact (marshal_with_discharge r d1 d2). Qed.

(** X16: storing a pair after [with_discharge] and reading it back gives the
    pair with the same root and the new discharge, when neither string has a
    high surrogate immediately followed by a low surrogate. *)
Theorem with_discharge_round_trip (r d1 d2 : pystr) :
  valid_str r -> valid_str d2 ->
  has_surrogate_pair r = false -> has_surrogate_pair d2 = false ->
  unmarshal_u1_credentials
    (marshal_u1_credentials
       (UbuntuOneMacaroons.with_discharge (UbuntuOneMacaroons.make r d1) d2))
  = Return (UbuntuOneMacaroons.make r d2).
Proof.
  intros Hr Hd Pr Pd. rewrite marshal_with_discharge, unmarshal_marshal_u1.
  now rewrite !join_pairs_id.
Qed.

Lemma with_discharge_round_trip_witness :
  unmarshal_u1_credentials
    (marshal_u1_credentials
       (UbuntuOneMacaroons.with_discharge
          (UbuntuOneMacaroons.make (py "root") (py "old")) (py "new")))
  = Return (UbuntuOneMacaroons.make (py "root") (py "new")).
Proof.
  apply (with_discharge_round_trip (py "root") (py "old") (py "new"));
    [repeat constructor | repeat constructor | reflexivity | reflexivity].
Defined.

(** X17: of two successive calls of [with_discharge] only the last one
    counts. *)
Theorem with_discharge_twice (p : UbuntuOneMacaroons.t) (d2 d3 : pystr) :
  UbuntuOneMacaroons.with_discharge (UbuntuOneMacaroons.with_discharge p d2) d3
  = UbuntuOneMacaroons.with_discharge p d3.
Proof.
  rewrite !with_discharge_eq.
  cbn [UbuntuOneMacaroons.root UbuntuOneMacaroons.discharge UbuntuOneMacaroons.extra].
  now rewrite dict_setitem_twice.
Qed.

Lemma hex_digit_printable (n : N) : n < 16 -> printable (hex_digit n).
Proof.
  intros H. unfold printable, hex_digit.
  destruct (N.ltb_spec n 10); lia.
Qed.

Lemma escape_u_printable (x : N) : Forall printable (escape_u x).
Proof.
  unfold escape_u, hex4.
  repeat (apply Forall_cons; [try (apply hex_digit_printable, land_15_lt)|]);
    try apply Forall_nil; unfold printable; lia.
Qed.

Lemma escape_char_printable (c : codepoint) : Forall printable (escape_char c).
Proof.
  unfold escape_char.
  repeat match goal with
         | |- Forall printable (if ?x =? ?y then _ else _) =>
             destruct (x =? y);
             [repeat (apply Forall_cons; [unfold printable; lia|]); apply Forall_nil|]
         end.
  destruct ((32 <=? c) && (c <=? 126)) eqn:E.
  - apply andb_true_iff in E. destruct E as [E1 E2].
    apply N.leb_le in E1. apply N.leb_le in E2.
    apply Forall_cons; [split; assumption|apply Forall_nil].
  - destruct (c <? 65536).
    + apply escape_u_printable.
    + apply Forall_app; split; apply escape_u_printable.
Qed.

Lemma encode_basestring_ascii_printable (s : pystr) :
  Forall printable (encode_basestring_ascii s).
Proof.
  unfold encode_basestring_ascii.
  apply Forall_cons; [unfold printable; lia|].
  apply Forall_app; split.
  - unfold escape_chars. induction s as [|c s IH]; cbn [flat_map]; [apply Forall_nil|].
    apply Forall_app; split; [apply escape_char_printable|exact IH].
  - apply Forall_cons; [unfold printable; lia|apply Forall_nil].
Qed.

Lemma separator_printable : Forall printable (py ", ") /\ Forall printable (py ": ").
Proof.
  change (py ", ") with [44; 32]. change (py ": ") with [58; 32].
  split; (apply Forall_cons; [unfold printable; lia|]);
    (apply Forall_cons; [unfold printable; lia|]); apply Forall_nil.
Qed.

Lemma envelope_text_printable (tag vtext : pystr) :
  Forall printable vtext -> Forall printable (envelope_text tag vtext).
Proof.
  intros H. unfold envelope_text.
  apply Forall_cons; [unfold printable; lia|].
  repeat (apply Forall_app; split);
    try apply encode_basestring_ascii_printable;
    try apply separator_printable; try assumption.
  apply Forall_cons; [unfold printable; lia|apply Forall_nil].
Qed.

Lemma join_printable (parts : list pystr) :
  Forall (Forall printable) parts -> Forall printable (join (py ", ") parts).
Proof.
  induction parts as [|p parts IH]; intros H; [apply Forall_nil|].
  inversion H as [|? ? Hp Hps]; subst.
  destruct parts as [|q more]; [exact Hp|].
  rewrite join_cons2.
  apply Forall_app; split; [exact Hp|].
  apply Forall_app; split; [apply separator_printable|exact (IH Hps)].
Qed.

Lemma str_dict_printable (items : list (pystr * pyobj)) :
  Forall str_entry items -> Forall printable (json_dumps (PyDict items)).
Proof.
  intros H. rewrite json_dumps_dict.
  apply Forall_cons; [unfold printable; lia|].
  apply Forall_app; split; [|apply Forall_cons; [unfold printable; lia|apply Forall_nil]].
  apply join_printable.
  induction H as [|[k o] items [s Hs] _ IH]; cbn [map]; [apply Forall_nil|].
  apply Forall_cons; [|exact IH].
  unfold entry_text. cbn [fst snd] in *. subst o.
  apply Forall_app; split; [apply encode_basestring_ascii_printable|].
  apply Forall_app; split; [apply separator_printable|].
  apply encode_basestring_ascii_printable.
Qed.

(** X18: the text [marshal_candid_credentials] writes holds printable ASCII
    only (code points 32 to 126), whatever the credentials. *)
Theorem marshal_candid_printable (v : pystr) :
  Forall printable (marshal_candid_credentials v).
Proof.
  rewrite marshal_candid_text.
  apply envelope_text_printable, encode_basestring_ascii_printable.
Qed.

(** X19: the text [marshal_u1_credentials] writes holds printable ASCII
    only (code points 32 to 126), whatever the instance. *)
Theorem marshal_u1_printable (p : UbuntuOneMacaroons.t) :
  Forall printable (marshal_u1_credentials p).
Proof.
  rewrite marshal_u1_text.
  apply envelope_text_printable, str_dict_printable.
  apply dict_of_pairs_str_entries.
Qed.

Lemma join_surrogates_range (hi lo : codepoint) :
  65536 <= join_surrogates hi lo < 1114112.
Proof.
  unfold join_surrogates.
  rewrite lor_shiftl_add by apply land_1023_lt.
  change (2 ^ 10) with 1024.
  pose proof (land_1023_lt hi). pose proof (land_1023_lt lo). lia.
Qed.

Lemma recode_cases (c : codepoint) :
  (c < 65536 /\ recode c = c) \/ (65536 <= recode c < 1114112).
Proof.
  unfold recode. destruct (N.ltb_spec c 65536); [left; split; [assumption|reflexivity]|].
  right. apply join_surrogates_range.
Qed.

Lemma recode_high (c : codepoint) :
  is_high_surrogate (recode c) = true -> recode c = c.
Proof.
  intros H. apply is_high_surrogate_spec in H.
  destruct (recode_cases c) as [[_ E]|R]; [exact E|lia].
Qed.

Lemma recode_low (c : codepoint) :
  is_low_surrogate (recode c) = true -> recode c = c.
Proof.
  intros H. apply is_low_surrogate_spec in H.
  destruct (recode_cases c) as [[_ E]|R]; [exact E|lia].
Qed.

Lemma recode_valid_codepoint (c : codepoint) : valid_codepoint (recode c).
Proof.
  unfold valid_codepoint. destruct (recode_cases c) as [[L E]|R]; [rewrite E|]; lia.
Qed.

Lemma has_surrogate_pair_cons (c : codepoint) (s : pystr) :
  is_high_surrogate c = false -> has_surrogate_pair s = false ->
  has_surrogate_pair (c :: s) = false.
Proof.
  intros Hc Hs. destruct s as [|c' s']; [reflexivity|].
  change (has_surrogate_pair (c :: c' :: s'))
    with ((is_high_surrogate c && is_low_surrogate c') || has_surrogate_pair (c' :: s')).
  now rewrite Hc, Hs.
Qed.

(** What [join_pairs] returns can be stored and read back unchanged: its
    code points are valid, no pair is left in it, and a low surrogate at
    its head was at the head of the argument. *)
Lemma join_pairs_settled (n : nat) (v : pystr) :
  (List.length v <= n)%nat ->
  valid_str (join_pairs v)
  /\ has_surrogate_pair (join_pairs v) = false
  /\ (forall x t, join_pairs v = x :: t -> is_low_surrogate x = true ->
                  exists t', v = x :: t').
Proof.
  revert v. induction n as [|n IH]; intros v Hn.
  { destruct v; [|cbn [List.length] in Hn; lia].
    repeat split; [constructor|discriminate]. }
  destruct v as [|c [|c' s]].
  - repeat split; [constructor|discriminate].
  - change (join_pairs [c]) with [recode c]. repeat split.
    + constructor; [apply recode_valid_codepoint|constructor].
    + intros x t E Hx. inversion E; subst. rewrite (recode_low _ Hx). now exists [].
  - cbn [List.length] in Hn.
    destruct (is_high_surrogate c && is_low_surrogate c') eqn:Hpair.
    + apply andb_true_iff in Hpair. destruct Hpair as [Hh Hl].
      rewrite (join_pairs_pair _ _ _ Hh Hl).
      destruct (IH s ltac:(lia)) as (Vs & Ps & _).
      pose proof (join_surrogates_range c c') as R.
      repeat split.
      * constructor; [unfold valid_codepoint; lia|exact Vs].
      * apply has_surrogate_pair_cons; [apply not_high_surrogate; lia|exact Ps].
      * intros x t E Hx. inversion E; subst.
        apply is_low_surrogate_spec in Hx. lia.
    + assert (E : join_pairs (c :: c' :: s) = recode c :: join_pairs (c' :: s)).
      { change (join_pairs (c :: c' :: s))
          with (if is_high_surrogate c && is_low_surrogate c'
                then join_surrogates c c' :: join_pairs s
                else recode c :: join_pairs (c' :: s)).
        now rewrite Hpair. }
      rewrite E.
      destruct (IH (c' :: s) ltac:(cbn [List.length]; lia)) as (Vs & Ps & Hs).
      repeat split.
      * constructor; [apply recode_valid_codepoint|exact Vs].
      * destruct (join_pairs (c' :: s)) as [|x t] eqn:J; [reflexivity|].
        change (has_surrogate_pair (recode c :: x :: t))
          with ((is_high_surrogate (recode c) && is_low_surrogate x)
                || has_surrogate_pair (x :: t)).
        rewrite Ps, orb_false_r.
        destruct (is_high_surrogate (recode c)) eqn:Hh; [|reflexivity].
        destruct (is_low_surrogate x) eqn:Hl; [|reflexivity].
        exfalso.
        destruct (Hs x t eq_refl Hl) as [t' Et]. inversion Et; subst.
        rewrite (recode_high _ Hh) in Hh. rewrite Hh, Hl in Hpair. discriminate.
      * intros x t Ex Hx. inversion Ex; subst.
        rewrite (recode_low _ Hx). now exists (c' :: s).
Qed.

Lemma join_pairs_idempotent (v : pystr) : join_pairs (join_pairs v) = join_pairs v.
Proof.
  destruct (join_pairs_settled (List.length v) v (Nat.le_refl _)) as (V & P & _).
  now apply join_pairs_id.
Qed.

(** X20: [unmarshal_candid_credentials] accepts every text that
    [marshal_candid_credentials] writes, and returns the credentials with
    each high surrogate that is immediately followed by a low surrogate
    merged with it into one code point; nothing else changes. *)
Theorem candid_round_trip_general (v : pystr) :
  unmarshal_candid_credentials (marshal_candid_credentials v) = Return (join_pairs v).
Proof. exact (unmarshal_marshal_candid v). Qed.

(** X21: [unmarshal_u1_credentials] accepts every text that
    [marshal_u1_credentials] writes for a pair built by the constructor, and
    returns the pair with the surrogate pairs of each string merged. *)
Theorem u1_round_trip_general (r d : pystr) :
  unmarshal_u1_credentials (marshal_u1_credentials (UbuntuOneMacaroons.make r d))
  = Return (UbuntuOneMacaroons.make (join_pairs r) (join_pairs d)).
Proof. exact (unmarshal_marshal_u1 r d). Qed.

(** X22: what one round trip through [marshal_candid_credentials] and
    [unmarshal_candid_credentials] returns is kept unchanged by every
    further round trip. *)
Theorem candid_round_trip_stable (v w : pystr) :
  unmarshal_candid_credentials (marshal_candid_credentials v) = Return w ->
  unmarshal_candid_credentials (marshal_candid_credentials w) = Return w.
Proof.
  rewrite !unmarshal_marshal_candid. intros H. inversion H; subst.
  now rewrite join_pairs_idempotent.
Qed.

Lemma candid_round_trip_stable_witness :
  unmarshal_candid_credentials (marshal_candid_credentials [65536]) = Return [65536].
Proof.
  apply (candid_round_trip_stable [55296; 56320] [65536]). vm_compute. reflexivity.
Defined.

(** X23: what one round trip through [marshal_u1_credentials] and
    [unmarshal_u1_credentials] returns for a pair built by the constructor
    is kept unchanged by every further round trip. *)
Theorem u1_round_trip_stable (r d : pystr) (p : UbuntuOneMacaroons.t) :
  unmarshal_u1_credentials (marshal_u1_credentials (UbuntuOneMacaroons.make r d))
  = Return p ->
  unmarshal_u1_credentials (marshal_u1_credentials p) = Return p.
Proof.
  rewrite unmarshal_marshal_u1. intros H. inversion H; subst.
  rewrite unmarshal_marshal_u1. now rewrite !join_pairs_idempotent.
Qed.

Lemma u1_round_trip_stable_witness :
  unmarshal_u1_credentials
    (marshal_u1_credentials (UbuntuOneMacaroons.make [65536] (py "d")))
  = Return (UbuntuOneMacaroons.make [65536] (py "d")).
Proof.
  apply (u1_round_trip_stable [55296; 56320] (py "d")). vm_compute. reflexivity.
Defined.

(** X24: [marshal_candid_credentials] keeps credentials apart: two
    credentials without surrogate pairs that give the same text are the
    same. *)
Theorem marshal_candid_injective (v w : pystr) :
  valid_str v -> valid_str w ->
  has_surrogate_pair v = false -> has_surrogate_pair w = false ->
  marshal_candid_credentials v = marshal_candid_credentials w ->
  v = w.
Proof.
  intros Vv Vw Pv Pw E.
  pose proof (unmarshal_marshal_candid v) as Hv.
  pose proof (unmarshal_marshal_candid w) as Hw.
  rewrite E, Hw in Hv. inversion Hv as [J].
  now rewrite !join_pairs_id in J.
Qed.

Lemma marshal_candid_injective_witness : py "abc" = py "abc".
Proof.
  apply (marshal_candid_injective (py "abc") (py "abc"));
    [repeat constructor | repeat constructor | reflexivity | reflexivity | reflexivity].
Defined.
